(** * ViT feature extractor ([extractors/base.py])

    A shallow embedding of [VitExtractor] and of the two similarity
    functions [attn_cosine_sim] and [cross_cos_sim], together with the
    properties of the geometry calculator, the hook life cycle, the
    query/key/value decomposition and the similarity maps.

    Conventions.
    - A tensor is its shape together with its elements in row-major order
      (what [torch] calls the contiguous layout).  Every operation below
      returns its result in that layout, so [reshape] only relabels.
    - Python exceptions are values of [error]; a computation that may raise
      returns a [result].
    - Python [int]s coming from the caller ([patch_size], [layer_num]) are
      [Z]; dimensions of tensors are [nat].
    - The scalars of a tensor are a type [F] with the operations the code
      uses.  Structural statements hold for every [F]; statements that need
      field reasoning are made over the real numbers. *)

From Stdlib Require Import ZArith List Lia Reals Lra.
From stdpp Require Import gmap strings list.

Local Open Scope nat_scope.

(** ** Exceptions *)

Inductive error : Set :=
  | ZeroDivisionError   (* [//] by zero *)
  | ValueError          (* tuple unpacking of the wrong length *)
  | IndexError          (* list or tensor index out of range *)
  | RuntimeError        (* torch shape errors: reshape, permute, matmul *)
  | KeyError            (* a dictionary without the key *)
  | NotImplementedError (* [load] *)
  | AssertionError.     (* a failed [assert] *)

Inductive result (A : Type) : Type :=
  | Ok (a : A)
  | Err (e : error).
Arguments Ok {A} a.
Arguments Err {A} e.

#[global] Instance result_ret : MRet result := fun A a => Ok a.
#[global] Instance result_bind : MBind result := fun A B f m =>
  match m with
  | Ok a => f a
  | Err e => Err e
  end.

Definition is_ok {A} (r : result A) : bool :=
  match r with Ok _ => true | Err _ => false end.

(** ** Row-major tabulation *)

Section Tabulate.
Context {A : Type}.

Definition tab (n : nat) (f : nat -> A) : list A := map f (seq 0 n).

Definition tabulate2 (m n : nat) (f : nat -> nat -> A) : list A :=
  flat_map (fun i => tab n (f i)) (seq 0 m).

Definition tabulate3 (a b c : nat) (f : nat -> nat -> nat -> A) : list A :=
  flat_map (fun i => tabulate2 b c (f i)) (seq 0 a).

Definition tabulate4 (a b c d : nat)
    (f : nat -> nat -> nat -> nat -> A) : list A :=
  flat_map (fun i => tabulate3 b c d (f i)) (seq 0 a).

Definition numel (dims : list nat) : nat := fold_right Nat.mul 1 dims.
End Tabulate.

(** ** Scalars

    The element type of a tensor with the arithmetic the code applies to
    it: [fof_nat] is the promotion of a Python [int] in [tensor / n],
    [eps_default] the default [eps=1e-08] of the similarity functions. *)

Class Scalar (F : Type) : Type := {
  fzero : F;
  fadd : F -> F -> F;
  fmul : F -> F -> F;
  fdiv : F -> F -> F;
  fmax : F -> F -> F;
  fsqrt : F -> F;
  fof_nat : nat -> F;
  eps_default : F
}.

(** ** Tensors *)

Record tensor (F : Type) : Type := Tensor { shape : list nat; data : list F }.
Arguments Tensor {F} shape data.
Arguments shape {F} t.
Arguments data {F} t.

(** A tensor is well formed when it holds as many elements as its shape
    says; every tensor [torch] hands out is. *)
Definition wf {F} (t : tensor F) : Prop := length (data t) = numel (shape t).

Section Tensor.
Context `{Scalar F}.
Implicit Types t : tensor F.

Definition at2 (s1 : nat) (l : list F) (i j : nat) : F :=
  nth (i * s1 + j) l fzero.
Definition at3 (s1 s2 : nat) (l : list F) (i j k : nat) : F :=
  nth ((i * s1 + j) * s2 + k) l fzero.
Definition at4 (s1 s2 s3 : nat) (l : list F) (i j k m : nat) : F :=
  nth (((i * s1 + j) * s2 + k) * s3 + m) l fzero.

(** [t.reshape(dims)] *)
Definition reshape t (dims : list nat) : result (tensor F) :=
  if numel dims =? length (data t)
  then Ok (Tensor dims (data t))
  else Err RuntimeError.

(** [t[i]] for a literal index [i >= 0] *)
Definition index0 (i : nat) t : result (tensor F) :=
  match shape t with
  | [] => Err IndexError
  | n :: rest =>
      if i <? n
      then Ok (Tensor rest (firstn (numel rest) (skipn (i * numel rest) (data t))))
      else Err IndexError
  end.

(** [t[None, None, ...]] *)
Definition unsqueeze00 t : tensor F :=
  Tensor (1 :: 1 :: shape t) (data t).

(** [t[:, 0, :]]: index 0 of dimension 1, at rank 3 or more *)
Definition slice_col0 t : result (tensor F) :=
  match shape t with
  | b :: n :: d :: rest =>
      let r := numel (d :: rest) in
      if 0 <? n
      then Ok (Tensor (b :: d :: rest) (tabulate2 b r (fun i k => at3 n r (data t) i 0 k)))
      else Err IndexError
  | _ => Err IndexError
  end.

(** [t.permute(1, 2, 0, 3)]: [r[a][b][c][d] = t[c][a][b][d]] *)
Definition permute_1203 t : result (tensor F) :=
  match shape t with
  | [s0; s1; s2; s3] =>
      Ok (Tensor [s1; s2; s0; s3]
            (tabulate4 s1 s2 s0 s3 (fun a b c d => at4 s1 s2 s3 (data t) c a b d)))
  | _ => Err RuntimeError
  end.


(** [t.permute(0, 2, 1)]: [r[a][b][c] = t[a][c][b]] *)
Definition permute_021 t : result (tensor F) :=
  match shape t with
  | [s0; s1; s2] =>
      Ok (Tensor [s0; s2; s1]
            (tabulate3 s0 s2 s1 (fun a b c => at3 s1 s2 (data t) a c b)))
  | _ => Err RuntimeError
  end.

(** [t.transpose(0, 1)] on the rank-3 tensors the code applies it to
    (it follows [h, t, d = x.shape], which already demands rank 3). *)
Definition transpose_01 t : result (tensor F) :=
  match shape t with
  | [s0; s1; s2] =>
      Ok (Tensor [s1; s0; s2]
            (tabulate3 s1 s0 s2 (fun a b c => at3 s1 s2 (data t) b a c)))
  | _ => Err RuntimeError
  end.

End Tensor.

(** ** Scalar arithmetic on tensors *)

Section TensorArith.
Context `{Scalar F}.

(** the reduction [sum_k l[k]] *)
Definition fsum (l : list F) : F := fold_left fadd l fzero.

(** size of a broadcast batch dimension, and the index read in an operand
    whose batch dimension is [n] *)
Definition bcast_dim (a b : nat) : option nat :=
  if decide (a = b) then Some a
  else if decide (a = 1) then Some b
  else if decide (b = 1) then Some a
  else None.
Definition bcast_ix (n i : nat) : nat := if decide (n = 1) then 0 else i.

(** [x.norm(dim=2, keepdim=True)].  The operand is the rank-3 tensor [x[0]]
    of the similarity functions: every call site passes
    [m[None, None, ...]] for a matrix [m].  A lower rank has no dimension
    2.  Higher ranks, which [torch] would carry on with by broadcasting, do
    not arise from those call sites and are reported as an error. *)
Definition norm_dim2 (x : tensor F) : result (tensor F) :=
  match shape x with
  | [b; t; d] =>
      Ok (Tensor [b; t; 1]
            (tabulate3 b t 1 (fun i j _ =>
               fsqrt (fsum (tab d (fun k =>
                 fmul (at3 t d (data x) i j k) (at3 t d (data x) i j k)))))))
  | [] | [_] | [_; _] => Err IndexError
  | _ => Err RuntimeError
  end.

(** [a @ b] on rank-3 operands: a batch of matrix products, the batch
    dimension broadcast when one side has batch 1. *)
Definition matmul3 (a b : tensor F) : result (tensor F) :=
  match shape a, shape b with
  | [ba; n; m], [bb; m'; k] =>
      match bcast_dim ba bb with
      | Some bo =>
          if decide (m = m')
          then Ok (Tensor [bo; n; k]
                     (tabulate3 bo n k (fun bi i j =>
                        fsum (tab m (fun l =>
                          fmul (at3 n m (data a) (bcast_ix ba bi) i l)
                               (at3 m' k (data b) (bcast_ix bb bi) l j))))))
          else Err RuntimeError
      | None => Err RuntimeError
      end
  | _, _ => Err RuntimeError
  end.

(** [torch.clamp(t, min=eps)] *)
Definition clamp_min (t : tensor F) (eps : F) : tensor F :=
  Tensor (shape t) (map (fun v => fmax v eps) (data t)).

(** [a / b] for operands of one shape, which is what the two quotients of
    this module divide; other shapes are reported as an error. *)
Definition tdiv (a b : tensor F) : result (tensor F) :=
  if decide (shape a = shape b)
  then Ok (Tensor (shape a)
             (tab (length (data a)) (fun n =>
                fdiv (nth n (data a) fzero) (nth n (data b) fzero))))
  else Err RuntimeError.

(** [t.sum(dim=1)]: [r[b][..] = sum_h t[b][h][..]] *)
Definition sum_dim1 (t : tensor F) : result (tensor F) :=
  match shape t with
  | b :: h :: rest =>
      let r := numel rest in
      Ok (Tensor (b :: rest)
            (tabulate2 b r (fun bi j =>
               fsum (tab h (fun hi => at3 h r (data t) bi hi j)))))
  | _ => Err IndexError
  end.

(** [t / n] for a Python [int] [n] *)
Definition div_scalar (t : tensor F) (n : nat) : tensor F :=
  Tensor (shape t) (map (fun v => fdiv v (fof_nat n)) (data t)).

(** *** The two similarity functions *)

Definition attn_cosine_sim (x : tensor F) (eps : F) : result (tensor F) :=
  x ← index0 0 x;
  norm1 ← norm_dim2 x;
  norm1_t ← permute_021 norm1;
  prod ← matmul3 norm1 norm1_t;
  let factor := clamp_min prod eps in
  x_t ← permute_021 x;
  dots ← matmul3 x x_t;
  tdiv dots factor.

Definition cross_cos_sim (x y : tensor F) (eps : F) : result (tensor F) :=
  x ← index0 0 x;
  y ← index0 0 y;
  norm_x ← norm_dim2 x;
  norm_y ← norm_dim2 y;
  norm_y_t ← permute_021 norm_y;
  prod ← matmul3 norm_x norm_y_t;
  let factor := clamp_min prod eps in
  y_t ← permute_021 y;
  dots ← matmul3 x y_t;
  tdiv dots factor.

(** The quantities the similarity claims speak about, for token sets of
    shape [(t, d)] given by their elements: the dot product of row [i] of
    one with row [j] of the other, and the L2 norm of a row. *)
Definition row_dot (d : nat) (xs ys : list F) (i j : nat) : F :=
  fsum (tab d (fun k => fmul (at2 d xs i k) (at2 d ys j k))).
Definition row_norm (d : nat) (xs : list F) (i : nat) : F :=
  fsqrt (row_dot d xs xs i i).
End TensorArith.

(** ** Python integers and lists *)

(** [a // b] *)
Definition floordiv (a b : Z) : result Z :=
  if decide (b = 0%Z) then Err ZeroDivisionError else Ok (a / b)%Z.

(** [l[i]] for a Python [int] [i]: negative indices count from the end *)
Definition py_index {A} (l : list A) (i : Z) : result A :=
  let n := Z.of_nat (length l) in
  let j := if decide (i < 0)%Z then (n + i)%Z else i in
  if decide (0 <= j < n)%Z
  then match l !! Z.to_nat j with
       | Some a => Ok a
       | None => Err IndexError
       end
  else Err IndexError.

(** ** The extractor *)

Definition BLOCK_KEY : string := "block"%string.
Definition ATTN_KEY : string := "attn"%string.
Definition PATCH_IMD_KEY : string := "patch_imd"%string.
Definition QKV_KEY : string := "qkv"%string.
Definition KEY_LIST : list string := [BLOCK_KEY; ATTN_KEY; PATCH_IMD_KEY; QKV_KEY].

(** the literal [[0, 1, ..., 11]] of [_init_hooks_data] *)
Definition ALL_STAGES : list nat := [0; 1; 2; 3; 4; 5; 6; 7; 8; 9; 10; 11].

(** The computation points of a block that carry a forward hook:
    [block], [block.attn.attn_drop], [block.attn.qkv], [block.attn]. *)
Inductive point : Set := BlockPoint | AttnDropPoint | QkvPoint | AttnPoint.

#[global] Instance point_eq_dec : EqDecision point.
Proof. solve_decision. Defined.

(** the buffer the hook of a point appends to *)
Definition point_key (pt : point) : string :=
  match pt with
  | BlockPoint => BLOCK_KEY
  | AttnDropPoint => ATTN_KEY
  | QkvPoint => QKV_KEY
  | AttnPoint => PATCH_IMD_KEY
  end.

(** A registered hook.  The hooks this class attaches to one point are
    copies of one closure, so a hook, and the handle that removes it, is
    identified by its block and point; removing a handle deletes one
    occurrence. *)
Record hook : Set := Hook { hook_block : nat; hook_point : point }.

#[global] Instance hook_eq_dec : EqDecision hook.
Proof. solve_decision. Defined.

Fixpoint remove_one (h : hook) (l : list hook) : list hook :=
  match l with
  | [] => []
  | h' :: l' => if decide (h = h') then l' else h' :: remove_one h l'
  end.

Section Extractor.
Context `{Scalar F}.

(** What the extractor uses of a model of [models.vision_transformer]:
    the number of its blocks and, for an input image and a block, what
    each hooked module outputs during [model(input_img)].  For
    [block.attn] that is component [0] of its output, the only part the
    hook keeps. *)
Record VitModel : Type := {
  blocks : nat;
  block_output : tensor F -> nat -> tensor F;
  attn_drop_output : tensor F -> nat -> tensor F;
  qkv_output : tensor F -> nat -> tensor F;
  attn_output0 : tensor F -> nat -> tensor F
}.

(** the three constructors of [models.vision_transformer] *)
Variables vit_small vit_base vit_tiny : Z -> VitModel.

Definition MODE : gmap string (Z -> VitModel) :=
  <["small"%string := vit_small]> (<["base"%string := vit_base]> (<["tiny"%string := vit_tiny]> ∅)).

(** The fields of [self]; [forward_hooks] stands for the hook tables of
    the model's modules. *)
Record VitExtractor : Type := {
  mode : string;
  patch_size : Z;
  model : VitModel;
  hook_handlers : list hook;
  layers_dict : gmap string (list nat);
  outputs_dict : gmap string (list (tensor F));
  forward_hooks : list hook
}.

Definition set_hooks (hh fh : list hook) (s : VitExtractor) : VitExtractor :=
  {| mode := mode s; patch_size := patch_size s; model := model s;
     hook_handlers := hh; layers_dict := layers_dict s;
     outputs_dict := outputs_dict s; forward_hooks := fh |}.
Definition set_layers (ld : gmap string (list nat)) (s : VitExtractor) : VitExtractor :=
  {| mode := mode s; patch_size := patch_size s; model := model s;
     hook_handlers := hook_handlers s; layers_dict := ld;
     outputs_dict := outputs_dict s; forward_hooks := forward_hooks s |}.
Definition set_outputs (od : gmap string (list (tensor F))) (s : VitExtractor) : VitExtractor :=
  {| mode := mode s; patch_size := patch_size s; model := model s;
     hook_handlers := hook_handlers s; layers_dict := layers_dict s;
     outputs_dict := od; forward_hooks := forward_hooks s |}.

(** *** Hooks

    [__init__] binds the four keys of [KEY_LIST] in both dictionaries and
    nothing unbinds one, so reading a key never raises: a read is a total
    lookup and [append] an [alter]. *)

Definition _init_hooks_data (s : VitExtractor) : VitExtractor :=
  let ld := <[PATCH_IMD_KEY := ALL_STAGES]>
              (<[QKV_KEY := ALL_STAGES]>
                 (<[ATTN_KEY := ALL_STAGES]>
                    (<[BLOCK_KEY := ALL_STAGES]> (layers_dict s)))) in
  let od := foldl (fun od key => <[key := []]> od) (outputs_dict s) KEY_LIST in
  set_outputs od (set_layers ld s).

(** [self.hook_handlers.append(module.register_forward_hook(...))] *)
Definition attach (h : hook) (s : VitExtractor) : VitExtractor :=
  set_hooks (hook_handlers s ++ [h]) (forward_hooks s ++ [h]) s.

Definition attach_if (key : string) (pt : point) (block_idx : nat)
    (s : VitExtractor) : VitExtractor :=
  if bool_decide (block_idx ∈ layers_dict s !!! key)
  then attach (Hook block_idx pt) s
  else s.

Definition _register_hooks (s : VitExtractor) : VitExtractor :=
  foldl (fun s block_idx =>
           attach_if PATCH_IMD_KEY AttnPoint block_idx
             (attach_if QKV_KEY QkvPoint block_idx
                (attach_if ATTN_KEY AttnDropPoint block_idx
                   (attach_if BLOCK_KEY BlockPoint block_idx s))))
        s (seq 0 (blocks (model s))).

Definition _clear_hooks (s : VitExtractor) : VitExtractor :=
  set_hooks [] (foldl (fun fh h => remove_one h fh) (forward_hooks s) (hook_handlers s)) s.

(** *** The forward evaluation [self.model(input_img)]

    The blocks run in order; inside a block the hooked modules produce
    their outputs in the order qkv, attn_drop, attn, block, and each
    output is passed to the hooks attached to its module. *)

Definition point_output (m : VitModel) (pt : point) : tensor F -> nat -> tensor F :=
  match pt with
  | BlockPoint => block_output m
  | AttnDropPoint => attn_drop_output m
  | QkvPoint => qkv_output m
  | AttnPoint => attn_output0 m
  end.

Definition fire (input_img : tensor F) (block_idx : nat) (pt : point)
    (s : VitExtractor) : VitExtractor :=
  foldl (fun s h =>
           if decide (h = Hook block_idx pt)
           then set_outputs
                  (alter (fun l => l ++ [point_output (model s) pt input_img block_idx])
                         (point_key pt) (outputs_dict s)) s
           else s)
        s (forward_hooks s).

Definition run_model (input_img : tensor F) (s : VitExtractor) : VitExtractor :=
  foldl (fun s block_idx =>
           fire input_img block_idx BlockPoint
             (fire input_img block_idx AttnPoint
                (fire input_img block_idx AttnDropPoint
                   (fire input_img block_idx QkvPoint s))))
        s (seq 0 (blocks (model s))).

(** *** Methods as state transformers

    A method maps the extractor to the extractor it leaves, the value it
    returns or the exception it raises, and, as a ghost record, the
    tensor computations it ran: forward evaluations and similarity
    maps. *)

Inductive event : Type :=
  | EvForward (input_img : tensor F)
  | EvSimilarity.

Record outcome (A : Type) : Type := Outcome {
  final : VitExtractor;
  events : list event;
  value : result A
}.
Arguments Outcome {A} final events value.
Arguments final {A} o.
Arguments events {A} o.
Arguments value {A} o.

Definition M (A : Type) : Type := VitExtractor -> outcome A.

Definition lift {A} (r : result A) : M A := fun s => Outcome s [] r.
Definition emit (e : event) : M unit := fun s => Outcome s [e] (Ok tt).
Definition self : M VitExtractor := fun s => Outcome s [] (Ok s).

Definition bindM {A B} (f : A -> M B) (m : M A) : M B := fun s =>
  let o := m s in
  match value o with
  | Ok a => let o' := f a (final o) in
            Outcome (final o') (events o ++ events o') (value o')
  | Err e => Outcome (final o) (events o) (Err e)
  end.

#[local] Instance M_ret : MRet M := fun A a => lift (Ok a).
#[local] Instance M_bind : MBind M := fun A B f m => bindM f m.

Definition get_feature_from_input (input_img : tensor F) : M (list (tensor F)) :=
  fun s =>
    let s := _register_hooks s in
    let s := run_model input_img s in
    let feature := outputs_dict s !!! BLOCK_KEY in
    let s := _clear_hooks s in
    let s := _init_hooks_data s in
    Outcome s [EvForward input_img] (Ok feature).

Definition get_qkv_feature_from_input (input_img : tensor F) : M (list (tensor F)) :=
  fun s =>
    let s := _register_hooks s in
    let s := run_model input_img s in
    let feature := outputs_dict s !!! QKV_KEY in
    let s := _clear_hooks s in
    let s := _init_hooks_data s in
    Outcome s [EvForward input_img] (Ok feature).

Definition get_attn_feature_from_input (input_img : tensor F) : M (list (tensor F)) :=
  fun s =>
    let s := _register_hooks s in
    let s := run_model input_img s in
    let feature := outputs_dict s !!! ATTN_KEY in
    let s := _clear_hooks s in
    let s := _init_hooks_data s in
    Outcome s [EvForward input_img] (Ok feature).

(** *** Construction *)

(** [load] *)
Definition load {A} (pretrained : A) : result unit := Err NotImplementedError.

Definition __init__ {A} (mode : string) (patch_size : Z) (pretrained : option A)
    : result VitExtractor :=
  match MODE !! mode with
  | None => Err KeyError
  | Some make =>
      let model := make patch_size in
      _ ← match pretrained with
          | Some p => load p
          | None => Ok tt
          end;
      let empty_l := foldl (fun d key => <[key := []]> d) (∅ : gmap string (list nat)) KEY_LIST in
      let empty_o := foldl (fun d key => <[key := []]> d)
                           (∅ : gmap string (list (tensor F))) KEY_LIST in
      Ok (_init_hooks_data
            {| mode := mode; patch_size := patch_size; model := model;
               hook_handlers := []; layers_dict := empty_l;
               outputs_dict := empty_o; forward_hooks := [] |})
  end.

(** *** Geometry *)

Definition get_patch_size (s : VitExtractor) : Z := patch_size s.

Definition get_width_patch_num (s : VitExtractor) (input_img_shape : list Z) : result Z :=
  match input_img_shape with
  | [b; c; h; w] => floordiv w (get_patch_size s)
  | _ => Err ValueError
  end.

Definition get_height_patch_num (s : VitExtractor) (input_img_shape : list Z) : result Z :=
  match input_img_shape with
  | [b; c; h; w] => floordiv h (get_patch_size s)
  | _ => Err ValueError
  end.

Definition get_patch_num (s : VitExtractor) (input_img_shape : list Z) : result Z :=
  hp ← get_height_patch_num s input_img_shape;
  wp ← get_width_patch_num s input_img_shape;
  Ok (1 + hp * wp)%Z.

Definition get_head_num (s : VitExtractor) : nat :=
  if decide (mode s = "small"%string) then 6 else 12.

Definition get_embedding_dim (s : VitExtractor) : nat :=
  if decide (mode s = "small"%string) then 384 else 768.

(** *** Decomposition of the combined projection *)

(** [qkv.reshape(patch_num, 3, head_num, head_dim)] for the Python [int]
    [patch_num]: a non-negative size is used as it is, [-1] is inferred
    from the number of elements, any other negative size is rejected. *)
Definition reshape_qkv (qkv : tensor F) (patch_num : Z) (head_num head_dim : nat)
    : result (tensor F) :=
  if decide (0 <= patch_num)%Z
  then reshape qkv [Z.to_nat patch_num; 3; head_num; head_dim]
  else if decide (patch_num = -1)%Z
  then let r := 3 * head_num * head_dim in
       if decide (r <> 0 /\ length (data qkv) mod r = 0)
       then reshape qkv [length (data qkv) / r; 3; head_num; head_dim]
       else Err RuntimeError
  else Err RuntimeError.

(** [qkv.reshape(patch_num, 3, head_num, embedding_dim // head_num)
       .permute(1, 2, 0, 3)] *)
Definition qkv_planes (s : VitExtractor) (qkv : tensor F) (input_img_shape : list Z)
    : result (tensor F) :=
  patch_num ← get_patch_num s input_img_shape;
  let head_num := get_head_num s in
  let embedding_dim := get_embedding_dim s in
  r ← reshape_qkv qkv patch_num head_num (embedding_dim / head_num);
  permute_1203 r.

Definition get_queries_from_qkv (s : VitExtractor) (qkv : tensor F)
    (input_img_shape : list Z) : result (tensor F) :=
  planes ← qkv_planes s qkv input_img_shape; index0 0 planes.

Definition get_keys_from_qkv (s : VitExtractor) (qkv : tensor F)
    (input_img_shape : list Z) : result (tensor F) :=
  planes ← qkv_planes s qkv input_img_shape; index0 1 planes.

Definition get_values_from_qkv (s : VitExtractor) (qkv : tensor F)
    (input_img_shape : list Z) : result (tensor F) :=
  planes ← qkv_planes s qkv input_img_shape; index0 2 planes.

(** [input_img.shape] *)
Definition img_shape (input_img : tensor F) : list Z := Z.of_nat <$> shape input_img.

(** *** The facade *)

Definition get_keys_from_input (input_img : tensor F) (layer_num : Z) : M (tensor F) :=
  features ← get_qkv_feature_from_input input_img;
  qkv_features ← lift (py_index features layer_num);
  s ← self;
  lift (get_keys_from_qkv s qkv_features (img_shape input_img)).

Definition get_values_from_input (input_img : tensor F) (layer_num : Z) : M (tensor F) :=
  features ← get_qkv_feature_from_input input_img;
  qkv_features ← lift (py_index features layer_num);
  s ← self;
  lift (get_values_from_qkv s qkv_features (img_shape input_img)).

Definition get_queries_from_input (input_img : tensor F) (layer_num : Z) : M (tensor F) :=
  features ← get_qkv_feature_from_input input_img;
  qkv_features ← lift (py_index features layer_num);
  s ← self;
  lift (get_queries_from_qkv s qkv_features (img_shape input_img)).

Definition get_tokens_from_input (input_img : tensor F) (layer_num : Z) : M (tensor F) :=
  features ← get_feature_from_input input_img;
  lift (py_index features layer_num).

(** [h, t, d = x.shape;
     x.transpose(0, 1).reshape(t, h * d)[None, None, ...]] *)
Definition concatenate_heads (x : tensor F) : result (tensor F) :=
  match shape x with
  | [h; t; d] =>
      x_t ← transpose_01 x;
      concatenated ← reshape x_t [t; h * d];
      Ok (unsqueeze00 concatenated)
  | _ => Err ValueError
  end.

Definition self_sim (x : tensor F) : M (tensor F) :=
  concatenated ← lift (concatenate_heads x);
  _ ← emit EvSimilarity;
  lift (attn_cosine_sim concatenated eps_default).

Definition get_keys_self_sim_from_input (input_img : tensor F) (layer_num : Z)
    : M (tensor F) :=
  keys ← get_keys_from_input input_img layer_num; self_sim keys.

Definition get_values_self_sim_from_input (input_img : tensor F) (layer_num : Z)
    : M (tensor F) :=
  values ← get_values_from_input input_img layer_num; self_sim values.

Definition get_queries_self_sim_from_input (input_img : tensor F) (layer_num : Z)
    : M (tensor F) :=
  queries ← get_queries_from_input input_img layer_num; self_sim queries.

Definition get_tokens_self_sim_from_input (input_img : tensor F) (layer_num : Z)
    : M (tensor F) :=
  tokens ← get_tokens_from_input input_img layer_num; self_sim tokens.

Definition get_attentions_from_input (input_img : tensor F) (layer_num : Z)
    (return_mean : bool) : M (tensor F * option (tensor F)) :=
  features ← get_attn_feature_from_input input_img;
  attn_output_weights ← lift (py_index features layer_num);
  s ← self;
  summed ← lift (sum_dim1 attn_output_weights);
  let attn_output_weights_mean := div_scalar summed (get_head_num s) in
  mret (attn_output_weights,
        if return_mean then Some attn_output_weights_mean else None).

Definition get_keys_cross_sim_from_input (source_img target_img : tensor F)
    (layer_num : Z) : M (tensor F) :=
  src_keys ← get_keys_from_input source_img layer_num;
  tgt_keys ← get_keys_from_input target_img layer_num;
  if decide (shape src_keys = shape tgt_keys)
  then
    concatenated_src_keys ← lift (concatenate_heads src_keys);
    concatenated_tgt_keys ← lift (concatenate_heads tgt_keys);
    _ ← emit EvSimilarity;
    lift (cross_cos_sim concatenated_src_keys concatenated_tgt_keys eps_default)
  else lift (Err AssertionError).

Definition get_cls_token_from_input (input_img : tensor F) (layer_num : Z)
    : M (tensor F) :=
  features ← get_feature_from_input input_img;
  tokens ← lift (py_index features layer_num);
  lift (slice_col0 tokens).

(** *** Calls of the public operations *)

Inductive call : Type :=
  | GetFeature (input_img : tensor F)
  | GetQkvFeature (input_img : tensor F)
  | GetAttnFeature (input_img : tensor F)
  | GetKeys (input_img : tensor F) (layer_num : Z)
  | GetValues (input_img : tensor F) (layer_num : Z)
  | GetQueries (input_img : tensor F) (layer_num : Z)
  | GetTokens (input_img : tensor F) (layer_num : Z)
  | GetKeysSelfSim (input_img : tensor F) (layer_num : Z)
  | GetValuesSelfSim (input_img : tensor F) (layer_num : Z)
  | GetQueriesSelfSim (input_img : tensor F) (layer_num : Z)
  | GetTokensSelfSim (input_img : tensor F) (layer_num : Z)
  | GetAttentions (input_img : tensor F) (layer_num : Z) (return_mean : bool)
  | GetKeysCrossSim (source_img target_img : tensor F) (layer_num : Z)
  | GetClsToken (input_img : tensor F) (layer_num : Z).

Inductive returned : Type :=
  | Features (l : list (tensor F))
  | OneTensor (t : tensor F)
  | Attentions (weights : tensor F) (mean : option (tensor F)).

Definition returning {A} (g : A -> returned) (m : M A) : M returned :=
  a ← m; mret (g a).

Definition run_call (c : call) : M returned :=
  match c with
  | GetFeature i => returning Features (get_feature_from_input i)
  | GetQkvFeature i => returning Features (get_qkv_feature_from_input i)
  | GetAttnFeature i => returning Features (get_attn_feature_from_input i)
  | GetKeys i n => returning OneTensor (get_keys_from_input i n)
  | GetValues i n => returning OneTensor (get_values_from_input i n)
  | GetQueries i n => returning OneTensor (get_queries_from_input i n)
  | GetTokens i n => returning OneTensor (get_tokens_from_input i n)
  | GetKeysSelfSim i n => returning OneTensor (get_keys_self_sim_from_input i n)
  | GetValuesSelfSim i n => returning OneTensor (get_values_self_sim_from_input i n)
  | GetQueriesSelfSim i n => returning OneTensor (get_queries_self_sim_from_input i n)
  | GetTokensSelfSim i n => returning OneTensor (get_tokens_self_sim_from_input i n)
  | GetAttentions i n b =>
      returning (fun p => Attentions (fst p) (snd p)) (get_attentions_from_input i n b)
  | GetKeysCrossSim i j n => returning OneTensor (get_keys_cross_sim_from_input i j n)
  | GetClsToken i n => returning OneTensor (get_cls_token_from_input i n)
  end.

(** the extractor after a sequence of calls, whatever each returned or
    raised *)
Definition run_calls (history : list call) (s : VitExtractor) : VitExtractor :=
  foldl (fun s c => final (run_call c s)) s history.

(** *** Reference definitions for the claims *)



(** *** Relations between extractors used in the proofs *)

(** [s'] is [s] with the hooks [L] attached. *)
Definition hooked (L : list hook) (s s' : VitExtractor) : Prop :=
  s' = set_hooks (hook_handlers s ++ L) (forward_hooks s ++ L) s.

(** [s'] is [s] with other buffers under the keys of [KEY_LIST]. *)
Definition buffered (s s' : VitExtractor) : Prop :=
  exists od, s' = set_outputs od s /\
             forall k, k ∉ KEY_LIST -> od !! k = outputs_dict s !! k.

(** The extractor [__init__] leaves for a model. *)
Definition fresh (mode : string) (patch_size : Z) (m : VitModel) : VitExtractor :=
  {| mode := mode; patch_size := patch_size; model := m;
     hook_handlers := [];
     layers_dict := foldl (fun d key => <[key := ALL_STAGES]> d) ∅ KEY_LIST;
     outputs_dict := foldl (fun d key => <[key := []]> d) ∅ KEY_LIST;
     forward_hooks := [] |}.
(** A method [m] leaves a fresh extractor as it found it. *)
Definition keeps {A} (m : M A) : Prop :=
  forall md ps mdl, final (m (fresh md ps mdl)) = fresh md ps mdl.
End Extractor.

Arguments Outcome {F A} final events value.
Arguments final {F A} o.
Arguments events {F A} o.
Arguments value {F A} o.
Arguments EvSimilarity {F}.

#[global] Existing Instance M_ret.
#[global] Existing Instance M_bind.

(** ** Auxiliary notions for the properties of the hooks and of the records *)

Section CaptureDefs.
Context {F : Type}.

(** the hooks [_register_hooks] attaches for block [block_idx], in the order
    it attaches them *)
Definition hooks_at (ld : gmap string (list nat)) (block_idx : nat) : list hook :=
  (if bool_decide (block_idx ∈ ld !!! BLOCK_KEY) then [Hook block_idx BlockPoint] else [])
  ++ (if bool_decide (block_idx ∈ ld !!! ATTN_KEY) then [Hook block_idx AttnDropPoint] else [])
  ++ (if bool_decide (block_idx ∈ ld !!! QKV_KEY) then [Hook block_idx QkvPoint] else [])
  ++ (if bool_decide (block_idx ∈ ld !!! PATCH_IMD_KEY) then [Hook block_idx AttnPoint] else []).

Definition hooks_for (ld : gmap string (list nat)) (l : list nat) : list hook :=
  flat_map (hooks_at ld) l.

(** how many of the hooks [L] sit on point [pt] of block [block_idx] *)
Definition count_hooks (block_idx : nat) (pt : point) (L : list hook) : nat :=
  length (filter (fun h => h = Hook block_idx pt) L).

(** the stages of a model with [n] blocks selected for the buffer [key] *)
Definition selected (ld : gmap string (list nat)) (key : string) (n : nat) : list nat :=
  filter (fun i => i ∈ ld !!! key) (seq 0 n).
End CaptureDefs.

Section EventDefs.
Context `{Scalar F}.

(** the images of the forward evaluations of a record, in order *)
Definition forward_inputs (evs : list (event (F:=F))) : list (tensor F) :=
  flat_map (fun e => match e with EvForward img => [img] | EvSimilarity => [] end) evs.

(** the number of similarity maps computed in a record *)
Definition similarity_count (evs : list (event (F:=F))) : nat :=
  length (flat_map (fun e => match e with EvForward _ => [] | EvSimilarity => [tt] end) evs).

(** the images a call passes *)
Definition call_inputs (c : call (F:=F)) : list (tensor F) :=
  match c with
  | GetFeature i | GetQkvFeature i | GetAttnFeature i
  | GetKeys i _ | GetValues i _ | GetQueries i _ | GetTokens i _
  | GetKeysSelfSim i _ | GetValuesSelfSim i _ | GetQueriesSelfSim i _
  | GetTokensSelfSim i _ | GetAttentions i _ _ | GetClsToken i _ => [i]
  | GetKeysCrossSim i j _ => [i; j]
  end.

Definition is_similarity_call (c : call (F:=F)) : bool :=
  match c with
  | GetKeysSelfSim _ _ | GetValuesSelfSim _ _ | GetQueriesSelfSim _ _
  | GetTokensSelfSim _ _ | GetKeysCrossSim _ _ _ => true
  | _ => false
  end.
End EventDefs.

(** ** The real numbers as scalars

    [torch] computes in floating point; the statements that need the laws
    of a field are made for its idealisation over the reals. *)

Local Open Scope R_scope.

#[global] Instance Rscalar : Scalar R := {|
  fzero := 0;
  fadd := Rplus;
  fmul := Rmult;
  fdiv := Rdiv;
  fmax := Rmax;
  fsqrt := sqrt;
  fof_nat := INR;
  eps_default := 1 / 100000000
|}.

Local Close Scope R_scope.

(** ** A sample model

    A stand-in for a small ViT with patch size 16 whose hooked modules
    output tensors of the shapes the real ones have: tokens
    [(1, patches, 384)], attention weights [(1, 6, patches, patches)] and
    combined projections [(1, patches, 3 * 384)].  It serves to run the
    extractor on concrete images whose sides are multiples of the patch
    size. *)

Definition sample_patches (input_img : tensor R) : nat :=
  match shape input_img with
  | [_; _; h; w] => 1 + (h / 16) * (w / 16)
  | _ => 1
  end.

Definition sample_tensor (dims : list nat) (v : R) : tensor R :=
  Tensor dims (repeat v (numel dims)).

Definition sample_model : VitModel := {|
  blocks := 12;
  block_output := fun img i => sample_tensor [1; sample_patches img; 384] (INR i);
  attn_drop_output := fun img i =>
    sample_tensor [1; 6; sample_patches img; sample_patches img] (INR i);
  qkv_output := fun img i => sample_tensor [1; sample_patches img; 1152] (INR i);
  attn_output0 := fun img i => sample_tensor [1; sample_patches img; 384] (INR i)
|}.


Definition sample_image (h w : nat) : tensor R := sample_tensor [1; 3; h; w] 0%R.

Definition sample_extractor : VitExtractor := fresh "small" 16 sample_model.

(** * Properties *)

(** ** Row-major tabulation *)

Lemma numel_cons n dims : numel (n :: dims) = n * numel dims.
Proof. reflexivity. Qed.

Lemma row_major_lt i j m n : i < m -> j < n -> i * n + j < m * n.
Proof. intros Hi Hj. nia. Qed.

Section TabulateFacts.
Context {A : Type}.
Implicit Types (f : nat -> A) (l : list A).

Lemma length_tab n f : length (tab n f) = n.
Proof. unfold tab. now rewrite length_map, length_seq. Qed.

Lemma nth_tab n f i z : i < n -> nth i (tab n f) z = f i.
Proof.
  intros Hi. unfold tab.
  rewrite (nth_indep _ z (f 0)) by now rewrite length_map, length_seq.
  rewrite map_nth, seq_nth; auto.
Qed.

Lemma tab_ext n f g : (forall i, i < n -> f i = g i) -> tab n f = tab n g.
Proof.
  intros E. unfold tab. apply map_ext_in. intros i Hi.
  apply in_seq in Hi. apply E. lia.
Qed.


Lemma flat_map_seq_S (g : nat -> list A) m :
  flat_map g (seq 0 (S m)) = flat_map g (seq 0 m) ++ g m.
Proof. rewrite seq_S, flat_map_app. simpl. now rewrite app_nil_r. Qed.

Lemma length_flat_map_seq (g : nat -> list A) n m :
  (forall i, i < m -> length (g i) = n) ->
  length (flat_map g (seq 0 m)) = m * n.
Proof.
  induction m as [|m IH]; intros Hg; [reflexivity|].
  rewrite flat_map_seq_S, length_app, IH, Hg by auto with lia. lia.
Qed.

Lemma nth_flat_map_seq (g : nat -> list A) n m i j z :
  (forall i, i < m -> length (g i) = n) ->
  i < m -> j < n ->
  nth (i * n + j) (flat_map g (seq 0 m)) z = nth j (g i) z.
Proof.
  induction m as [|m IH]; intros Hg Hi Hj; [lia|].
  rewrite flat_map_seq_S.
  assert (Hlen : length (flat_map g (seq 0 m)) = m * n)
    by (apply length_flat_map_seq; auto with lia).
  destruct (decide (i = m)) as [->|Hne].
  - rewrite app_nth2 by lia. f_equal. lia.
  - rewrite app_nth1 by nia. apply IH; auto with lia.
Qed.


Lemma length_tabulate2 m n (f : nat -> nat -> A) : length (tabulate2 m n f) = m * n.
Proof. apply length_flat_map_seq. intros. apply length_tab. Qed.

Lemma length_tabulate3 a b c (f : nat -> nat -> nat -> A) :
  length (tabulate3 a b c f) = a * (b * c).
Proof. apply length_flat_map_seq. intros. apply length_tabulate2. Qed.


Lemma nth_tabulate2 m n (f : nat -> nat -> A) i j z :
  i < m -> j < n -> nth (i * n + j) (tabulate2 m n f) z = f i j.
Proof.
  intros Hi Hj. unfold tabulate2.
  rewrite (nth_flat_map_seq _ n) by (auto; intros; apply length_tab).
  now apply nth_tab.
Qed.

Lemma nth_tabulate3 a b c (f : nat -> nat -> nat -> A) i j k z :
  i < a -> j < b -> k < c ->
  nth ((i * b + j) * c + k) (tabulate3 a b c f) z = f i j k.
Proof.
  intros Hi Hj Hk. unfold tabulate3.
  replace ((i * b + j) * c + k) with (i * (b * c) + (j * c + k)) by lia.
  rewrite (nth_flat_map_seq _ (b * c))
    by (auto using row_major_lt; intros; apply length_tabulate2).
  now apply nth_tabulate2.
Qed.

Lemma nth_tabulate4 a b c d (f : nat -> nat -> nat -> nat -> A) i j k m z :
  i < a -> j < b -> k < c -> m < d ->
  nth (((i * b + j) * c + k) * d + m) (tabulate4 a b c d f) z = f i j k m.
Proof.
  intros Hi Hj Hk Hm. unfold tabulate4.
  replace (((i * b + j) * c + k) * d + m)
    with (i * (b * (c * d)) + ((j * c + k) * d + m)) by lia.
  assert ((j * c + k) * d + m < b * (c * d))
    by (rewrite Nat.mul_assoc; auto using row_major_lt).
  rewrite (nth_flat_map_seq _ (b * (c * d)))
    by (auto; intros; apply length_tabulate3).
  now apply nth_tabulate3.
Qed.







End TabulateFacts.


(** ** Tensors *)

Lemma bind_Ok {A B} (a : A) (f : A -> result B) : (Ok a ≫= f) = f a.
Proof. reflexivity. Qed.

Lemma bind_Err {A B} (e : error) (f : A -> result B) : (Err e ≫= f) = Err e.
Proof. reflexivity. Qed.


Section TensorFacts.
Context `{Scalar F}.

Lemma reshape_Ok (t : tensor F) dims :
  numel dims = length (data t) -> reshape t dims = Ok (Tensor dims (data t)).
Proof. intros E. unfold reshape. now rewrite E, Nat.eqb_refl. Qed.


End TensorFacts.

(** ** Geometry and variant constants *)

Section GeometryFacts.
Context {F : Type}.
Implicit Types s : VitExtractor (F:=F).

Lemma get_patch_num_eq s b c h w :
  patch_size s <> 0%Z ->
  get_patch_num s [b; c; h; w] = Ok (1 + (h / patch_size s) * (w / patch_size s))%Z.
Proof.
  intros Hps. unfold get_patch_num, get_height_patch_num, get_width_patch_num,
    get_patch_size, floordiv.
  repeat case_decide; done.
Qed.

(** C1: for a positive [patch_size] and every image shape
    [(b, c, h, w)], [get_height_patch_num] is [h // patch_size],
    [get_width_patch_num] is [w // patch_size] and [get_patch_num] is
    [1 + (h // patch_size) * (w // patch_size)]; a 224 x 224 image with
    patch size 16 has 197 patches. *)
Theorem get_patch_num_spec s b c h w :
  (0 < patch_size s)%Z ->
  get_height_patch_num s [b; c; h; w] = Ok (h / patch_size s)%Z /\
  get_width_patch_num s [b; c; h; w] = Ok (w / patch_size s)%Z /\
  get_patch_num s [b; c; h; w]
    = Ok (1 + (h / patch_size s) * (w / patch_size s))%Z /\
  (patch_size s = 16%Z -> get_patch_num s [b; c; 224%Z; 224%Z] = Ok 197%Z).
Proof.
  intros Hps. assert (patch_size s <> 0%Z) by lia.
  repeat split.
  - unfold get_height_patch_num, get_patch_size, floordiv.
    case_decide; done.
  - unfold get_width_patch_num, get_patch_size, floordiv.
    case_decide; done.
  - now apply get_patch_num_eq.
  - intros E. rewrite get_patch_num_eq by assumption. now rewrite E.
Qed.

(** The patch count of an actual image (non-negative dimensions) is at
    least 1, whatever the sign of the patch size. *)
Lemma get_patch_num_pos s (dims : list nat) p :
  get_patch_num s (Z.of_nat <$> dims) = Ok p -> (1 <= p)%Z.
Proof.
  destruct dims as [|b [|c [|h [|w [|]]]]]; try discriminate.
  cbn [fmap list_fmap].
  unfold get_patch_num, get_height_patch_num, get_width_patch_num,
    get_patch_size, floordiv.
  destruct (decide (patch_size s = 0%Z)) as [|Hps]; [discriminate|].
  cbn. intros [= <-].
  destruct (Z.lt_trichotomy (patch_size s) 0) as [Hneg|[|Hpos]]; [|done|].
  - assert (Hdiv : forall a, (0 <= a -> a / patch_size s <= 0)%Z).
    { intros a Ha.
      pose proof (Z.div_mod a (patch_size s) Hps).
      pose proof (Z.mod_neg_bound a (patch_size s) Hneg). nia. }
    pose proof (Hdiv (Z.of_nat h)). pose proof (Hdiv (Z.of_nat w)). nia.
  - assert (0 <= Z.of_nat h / patch_size s)%Z by (apply Z.div_pos; lia).
    assert (0 <= Z.of_nat w / patch_size s)%Z by (apply Z.div_pos; lia).
    nia.
Qed.

Lemma head_dim_exact s :
  get_head_num s * (get_embedding_dim s / get_head_num s) = get_embedding_dim s.
Proof.
  unfold get_head_num, get_embedding_dim.
  destruct (decide (mode s = "small"%string)); reflexivity.
Qed.
End GeometryFacts.

(** ** Decomposition of the combined projection *)

Section DecompositionFacts.
Context `{Scalar F}.
Implicit Types s : VitExtractor (F:=F).


Lemma qkv_planes_Ok s qkv input_img_shape p :
  get_patch_num s input_img_shape = Ok (Z.of_nat p) ->
  shape qkv = [p; 3 * get_embedding_dim s] ->
  wf qkv ->
  let hn := get_head_num s in
  let hd := get_embedding_dim s / get_head_num s in
  length (data qkv) = p * (3 * (hn * hd)) /\
  qkv_planes s qkv input_img_shape
  = permute_1203 (Tensor [p; 3; hn; hd] (data qkv)).
Proof.
  intros Hp Hshape Hwf hn hd.
  assert (Hlen : length (data qkv) = p * (3 * (hn * hd))).
  { unfold wf in Hwf. rewrite Hwf, Hshape. unfold hn, hd.
    rewrite head_dim_exact. cbn [numel fold_right]. now rewrite Nat.mul_1_r. }
  split; [exact Hlen|].
  unfold qkv_planes. rewrite Hp, bind_Ok. unfold reshape_qkv.
  rewrite decide_True by lia. rewrite Nat2Z.id.
  rewrite reshape_Ok; [reflexivity|].
  rewrite Hlen. cbn [numel fold_right]. fold hn hd. now rewrite Nat.mul_1_r.
Qed.

End DecompositionFacts.

(** ** Similarity maps *)

Section SimilarityFacts.
Context `{Scalar F}.

Lemma index0_unsqueeze00 sh (l : list F) :
  length l = numel sh ->
  index0 0 (unsqueeze00 (Tensor sh l)) = Ok (Tensor (1 :: sh) l).
Proof.
  intros Hl. unfold index0, unsqueeze00. cbn [shape data Nat.ltb Nat.leb].
  do 2 f_equal. change (skipn (0 * _) l) with l.
  apply firstn_all2. rewrite numel_cons. lia.
Qed.

Lemma nth_clamp (l : list F) eps n :
  n < length l ->
  nth n (map (fun v => fmax v eps) l) fzero = fmax (nth n l fzero) eps.
Proof.
  intros Hn.
  rewrite (nth_indep _ fzero (fmax fzero eps)) by now rewrite length_map.
  apply (map_nth (fun v => fmax v eps)).
Qed.

Lemma at3_tabulate3 a b c (f : nat -> nat -> nat -> F) i j k :
  i < a -> j < b -> k < c -> at3 b c (tabulate3 a b c f) i j k = f i j k.
Proof. intros. unfold at3. now apply nth_tabulate3. Qed.

Lemma matmul3_Ok b n m k (la lb : list F) :
  matmul3 (Tensor [b; n; m] la) (Tensor [b; m; k] lb)
  = Ok (Tensor [b; n; k]
          (tabulate3 b n k (fun bi i j =>
             fsum (tab m (fun l =>
               fmul (at3 n m la (bcast_ix b bi) i l)
                    (at3 m k lb (bcast_ix b bi) l j)))))).
Proof.
  unfold matmul3, bcast_dim. cbn [shape data].
  now rewrite !decide_True by reflexivity.
Qed.

(** The entries of the cross-similarity map of two token sets with [d]
    channels. *)
Lemma cross_cos_sim_entries tx ty d (xs ys : list F) eps :
  length xs = tx * d -> length ys = ty * d ->
  exists sim,
    cross_cos_sim (unsqueeze00 (Tensor [tx; d] xs)) (unsqueeze00 (Tensor [ty; d] ys)) eps
    = Ok sim /\
    shape sim = [1; tx; ty] /\
    forall i j, i < tx -> j < ty ->
      at3 tx ty (data sim) 0 i j
      = fdiv (row_dot d xs ys i j)
             (fmax (fsum [fmul (row_norm d xs i) (row_norm d ys j)]) eps).
Proof.
  intros Hx Hy. unfold cross_cos_sim.
  rewrite !index0_unsqueeze00 by (cbn [numel fold_right]; lia).
  rewrite !bind_Ok. unfold norm_dim2. cbn [shape data]. rewrite !bind_Ok.
  unfold permute_021. cbn [shape data]. rewrite !bind_Ok.
  repeat (rewrite matmul3_Ok || rewrite bind_Ok).
  unfold clamp_min, tdiv. cbn [shape data].
  rewrite decide_True by reflexivity.
  eexists. split; [reflexivity|]. split; [reflexivity|].
  intros i j Hi Hj. cbn [data]. unfold at3 at 1.
  rewrite length_tabulate3.
  assert (Hij : (0 * tx + i) * ty + j < 1 * (tx * ty))
    by (rewrite Nat.mul_1_l; apply row_major_lt; auto).
  rewrite nth_tab by exact Hij.
  rewrite nth_clamp by (now rewrite length_tabulate3).
  rewrite !nth_tabulate3 by auto with lia.
  unfold bcast_ix. rewrite !decide_True by reflexivity.
  f_equal.
  - unfold row_dot. f_equal. apply tab_ext. intros k Hk.
    rewrite at3_tabulate3 by auto with lia. reflexivity.
  - f_equal. cbn [tab seq map].
    rewrite !at3_tabulate3 by auto with lia. reflexivity.
Qed.

(** The cross-similarity map of two token sets: its shape, its size and
    its entries. *)
Lemma cross_cos_sim_full tx ty d (xs ys : list F) eps :
  length xs = tx * d -> length ys = ty * d ->
  exists sim,
    cross_cos_sim (unsqueeze00 (Tensor [tx; d] xs)) (unsqueeze00 (Tensor [ty; d] ys)) eps
    = Ok sim /\
    shape sim = [1; tx; ty] /\ wf sim /\
    forall i j, i < tx -> j < ty ->
      at3 tx ty (data sim) 0 i j
      = fdiv (row_dot d xs ys i j)
             (fmax (fadd fzero (fmul (row_norm d xs i) (row_norm d ys j))) eps).
Proof.
  intros Hx Hy.
  destruct (cross_cos_sim_entries tx ty d xs ys eps Hx Hy) as (sim & Hsim & Hsh & Hent).
  exists sim. split; [exact Hsim|]. split; [exact Hsh|]. split; [|exact Hent].
  revert Hsim. unfold cross_cos_sim.
  rewrite !index0_unsqueeze00 by (cbn [numel fold_right]; lia).
  rewrite !bind_Ok. unfold norm_dim2. cbn [shape data]. rewrite !bind_Ok.
  unfold permute_021. cbn [shape data]. rewrite !bind_Ok.
  repeat (rewrite matmul3_Ok || rewrite bind_Ok).
  unfold clamp_min, tdiv. cbn [shape data]. rewrite decide_True by reflexivity.
  intros [= <-]. unfold wf. cbn [shape data numel fold_right].
  rewrite length_tab, length_tabulate3. lia.
Qed.
End SimilarityFacts.

Section SelfSimilarity.
Context `{Scalar F}.

(** The entries of the self-similarity map of a token set with [d]
    channels. *)
Lemma attn_cosine_sim_entries t d (xs : list F) eps :
  length xs = t * d ->
  exists sim,
    attn_cosine_sim (unsqueeze00 (Tensor [t; d] xs)) eps = Ok sim /\
    shape sim = [1; t; t] /\
    forall i j, i < t -> j < t ->
      at3 t t (data sim) 0 i j
      = fdiv (row_dot d xs xs i j)
             (fmax (fsum [fmul (row_norm d xs i) (row_norm d xs j)]) eps).
Proof.
  intros Hx.
  destruct (cross_cos_sim_entries t t d xs xs eps Hx Hx) as (sim & Hsim & Hrest).
  exists sim. split; [|exact Hrest]. rewrite <- Hsim.
  unfold cross_cos_sim, attn_cosine_sim.
  destruct (index0 0 _) as [x0|e]; [|reflexivity]. rewrite !bind_Ok.
  destruct (norm_dim2 x0); reflexivity.
Qed.

(** The self-similarity map of a token set: a [(1, t, t)] tensor of
    [t * t] elements with the entries of [attn_cosine_sim]. *)
Lemma attn_cosine_sim_full t d (xs : list F) eps :
  length xs = t * d ->
  exists sim,
    attn_cosine_sim (unsqueeze00 (Tensor [t; d] xs)) eps = Ok sim /\
    shape sim = [1; t; t] /\ wf sim /\
    forall i j, i < t -> j < t ->
      at3 t t (data sim) 0 i j
      = fdiv (row_dot d xs xs i j)
             (fmax (fadd fzero (fmul (row_norm d xs i) (row_norm d xs j))) eps).
Proof.
  intros Hx.
  destruct (cross_cos_sim_full t t d xs xs eps Hx Hx) as (sim & Hsim & Hrest).
  exists sim. split; [|exact Hrest]. rewrite <- Hsim.
  unfold cross_cos_sim, attn_cosine_sim.
  destruct (index0 0 _) as [x0|e]; [|reflexivity]. rewrite !bind_Ok.
  destruct (norm_dim2 x0); reflexivity.
Qed.

(** C6: the cross-similarity of a token set against itself is its
    self-similarity map, entry for entry (and raises whenever it does). *)
Theorem cross_cos_sim_self (x : tensor F) eps :
  cross_cos_sim x x eps = attn_cosine_sim x eps.
Proof.
  unfold cross_cos_sim, attn_cosine_sim.
  destruct (index0 0 x) as [x0|e]; [|reflexivity]. rewrite !bind_Ok.
  destruct (norm_dim2 x0) as [n0|e]; reflexivity.
Qed.

(** C7: the self-similarity map of a token set of [t] tokens is a
    [(1, t, t)] tensor of [t * t] elements, and it is symmetric.  The only
    law of the scalars this needs is that their product commutes, which
    floating-point and real multiplication both do. *)
Theorem attn_cosine_sim_symmetric t d (xs : list F) eps :
  (forall a b : F, fmul a b = fmul b a) ->
  length xs = t * d ->
  exists sim,
    attn_cosine_sim (unsqueeze00 (Tensor [t; d] xs)) eps = Ok sim /\
    shape sim = [1; t; t] /\ wf sim /\
    forall i j, i < t -> j < t ->
      at3 t t (data sim) 0 i j = at3 t t (data sim) 0 j i.
Proof.
  intros Hcomm Hx.
  destruct (attn_cosine_sim_full t d xs eps Hx) as (sim & Hsim & Hsh & Hwf & Hent).
  exists sim. split; [exact Hsim|]. split; [exact Hsh|]. split; [exact Hwf|].
  intros i j Hi Hj. rewrite !Hent by assumption.
  rewrite (Hcomm (row_norm d xs i)). f_equal.
  unfold row_dot. f_equal. apply tab_ext. intros k _. apply Hcomm.
Qed.
End SelfSimilarity.

(** *** Over the reals *)

Lemma Rfmul_comm (a b : R) : fmul a b = fmul b a.
Proof. cbn [fmul Rscalar]. apply Rmult_comm. Qed.

Lemma Rfsum_nonneg (l : list R) : Forall (fun v => 0 <= v)%R l -> (0 <= fsum l)%R.
Proof.
  unfold fsum. cbn [fadd fzero Rscalar].
  assert (G : forall acc, (0 <= acc)%R -> Forall (fun v => 0 <= v)%R l ->
                          (0 <= fold_left Rplus l acc)%R).
  { induction l as [|v l IH]; intros acc Hacc Hl; [exact Hacc|].
    inversion Hl; subst. cbn [fold_left]. apply IH; [lra|assumption]. }
  apply G. lra.
Qed.

Lemma Rrow_dot_self_nonneg d (xs : list R) i : (0 <= row_dot d xs xs i i)%R.
Proof.
  unfold row_dot. apply Rfsum_nonneg. unfold tab.
  apply List.Forall_forall. intros v Hv. apply in_map_iff in Hv as (k & <- & _).
  cbn [fmul Rscalar]. nra.
Qed.

(** C5, as the code has it.  In any arithmetic, diagonal entry [i] of the
    [(1, t, t)] self-similarity map is the dot product of token [i] with
    itself over the clamped product of its norm with itself: the clamp
    bounds the squared norm, not the norm.  Over the reals that quotient
    is 1 when the squared norm reaches [eps], and the squared norm over
    [eps], below 1, when it does not. *)
Theorem attn_cosine_sim_diagonal t d i :
  i < t ->
  (forall (F : Type) (H : Scalar F) (xs : list F) (eps : F),
     length xs = t * d ->
     exists sim,
       attn_cosine_sim (unsqueeze00 (Tensor [t; d] xs)) eps = Ok sim /\
       shape sim = [1; t; t] /\ wf sim /\
       at3 t t (data sim) 0 i i
       = fdiv (row_dot d xs xs i i)
              (fmax (fadd fzero (fmul (row_norm d xs i) (row_norm d xs i))) eps)) /\
  (forall (xs : list R) (eps : R),
     length xs = t * d -> (0 < eps)%R ->
     exists sim,
       attn_cosine_sim (unsqueeze00 (Tensor [t; d] xs)) eps = Ok sim /\
       shape sim = [1; t; t] /\ wf sim /\
       ((eps <= row_norm d xs i * row_norm d xs i)%R ->
        at3 t t (data sim) 0 i i = 1%R) /\
       ((row_norm d xs i * row_norm d xs i < eps)%R ->
        at3 t t (data sim) 0 i i = (row_norm d xs i * row_norm d xs i / eps)%R /\
        (at3 t t (data sim) 0 i i < 1)%R)).
Proof.
  intros Hi. split.
  - intros F H xs eps Hx.
    destruct (attn_cosine_sim_full t d xs eps Hx) as (sim & Hsim & Hsh & Hwf & Hent).
    exists sim. repeat split; try assumption. now apply Hent.
  - intros xs eps Hx Heps.
    destruct (attn_cosine_sim_full t d xs eps Hx) as (sim & Hsim & Hsh & Hwf & Hent).
    exists sim. split; [exact Hsim|]. split; [exact Hsh|]. split; [exact Hwf|].
    rewrite Hent by assumption.
    unfold row_norm in *. pose proof (Rrow_dot_self_nonneg d xs i) as Hdot.
    set (dot := row_dot d xs xs i i) in *.
    cbn [fadd fmul fdiv fmax fsqrt fzero Rscalar] in *.
    rewrite sqrt_sqrt in * by assumption. rewrite Rplus_0_l.
    split.
    + intros Hnorm. rewrite Rmax_left by assumption. apply Rdiv_diag. lra.
    + intros Hnorm. rewrite Rmax_right by lra. split; [reflexivity|].
      apply (Rmult_lt_reg_r eps); [exact Heps|].
      unfold Rdiv. rewrite Rmult_assoc, Rinv_l by lra. lra.
Qed.

(** ** The hook life cycle *)

Section LifecycleFacts.
Context {F : Type}.
Implicit Types s : VitExtractor (F:=F).

Lemma hooked_nil s : hooked [] s s.
Proof. unfold hooked, set_hooks. destruct s. cbn. now rewrite !app_nil_r. Qed.

Lemma hooked_trans L1 L2 s s1 s2 :
  hooked L1 s s1 -> hooked L2 s1 s2 -> hooked (L1 ++ L2) s s2.
Proof.
  unfold hooked, set_hooks. intros -> ->. cbn. now rewrite !app_assoc.
Qed.

Lemma attach_if_hooked key pt i s : exists L, hooked L s (attach_if key pt i s).
Proof.
  unfold attach_if. case_bool_decide.
  - exists [Hook i pt]. reflexivity.
  - exists []. apply hooked_nil.
Qed.

Lemma _register_hooks_hooked s : exists L, hooked L s (_register_hooks s).
Proof.
  unfold _register_hooks. generalize (seq 0 (blocks (model s))). intros l.
  revert s. induction l as [|i l IH]; intros s.
  - exists []. apply hooked_nil.
  - cbn [foldl].
    destruct (attach_if_hooked BLOCK_KEY BlockPoint i s) as [L1 H1].
    destruct (attach_if_hooked ATTN_KEY AttnDropPoint i
                (attach_if BLOCK_KEY BlockPoint i s)) as [L2 H2].
    destruct (attach_if_hooked QKV_KEY QkvPoint i
                (attach_if ATTN_KEY AttnDropPoint i
                   (attach_if BLOCK_KEY BlockPoint i s))) as [L3 H3].
    destruct (attach_if_hooked PATCH_IMD_KEY AttnPoint i
                (attach_if QKV_KEY QkvPoint i
                   (attach_if ATTN_KEY AttnDropPoint i
                      (attach_if BLOCK_KEY BlockPoint i s)))) as [L4 H4].
    edestruct IH as [L5 H5].
    eexists. eapply hooked_trans; [|exact H5].
    eapply hooked_trans; [|exact H4].
    eapply hooked_trans; [|exact H3].
    eapply hooked_trans; [exact H1|exact H2].
Qed.

Lemma buffered_refl s : buffered s s.
Proof. exists (outputs_dict s). split; [now destruct s|auto]. Qed.

Lemma buffered_trans s s1 s2 : buffered s s1 -> buffered s1 s2 -> buffered s s2.
Proof.
  intros (od1 & -> & H1) (od2 & -> & H2). exists od2. split; [reflexivity|].
  intros k Hk. rewrite H2 by assumption. cbn. auto.
Qed.

Lemma point_key_in pt : point_key pt ∈ KEY_LIST.
Proof. destruct pt; unfold KEY_LIST; cbn; repeat constructor. Qed.

Lemma other_key k :
  BLOCK_KEY <> k -> ATTN_KEY <> k -> PATCH_IMD_KEY <> k -> QKV_KEY <> k -> k ∉ KEY_LIST.
Proof.
  intros H1 H2 H3 H4 Hin. unfold KEY_LIST in Hin.
  rewrite !elem_of_cons, elem_of_nil in Hin. intuition congruence.
Qed.

Lemma fire_buffered img i pt s : buffered s (fire img i pt s).
Proof.
  unfold fire. generalize (forward_hooks s). intros l.
  revert s. induction l as [|h l IH]; intros s; [apply buffered_refl|].
  cbn [foldl]. eapply buffered_trans; [|apply IH].
  case_decide; [|apply buffered_refl].
  eexists. split; [reflexivity|]. intros k Hk.
  apply lookup_alter_ne. intros <-. apply Hk, point_key_in.
Qed.

Lemma run_model_buffered img s : buffered s (run_model img s).
Proof.
  unfold run_model. generalize (seq 0 (blocks (model s))). intros l.
  revert s. induction l as [|i l IH]; intros s; [apply buffered_refl|].
  cbn [foldl]. eapply buffered_trans; [|apply IH].
  repeat (eapply buffered_trans; [|apply fire_buffered]).
  apply buffered_refl.
Qed.

Lemma remove_all_self (L : list hook) :
  foldl (fun fh h => remove_one h fh) L L = [].
Proof.
  induction L as [|h L IH]; [reflexivity|].
  cbn [foldl remove_one]. now rewrite decide_True.
Qed.

Lemma reset_outputs (m : gmap string (list (tensor F))) :
  (forall k, k ∉ KEY_LIST -> m !! k = None) ->
  foldl (fun od key => <[key := []]> od) m KEY_LIST
  = foldl (fun d key => <[key := []]> d) ∅ KEY_LIST.
Proof.
  intros Hm. apply map_eq. intros k. cbn [foldl KEY_LIST].
  rewrite !lookup_insert. repeat case_decide; try done.
  rewrite lookup_empty. apply Hm. now apply other_key.
Qed.

Lemma fresh_no_other_key (A : Type) (x : A) k :
  k ∉ KEY_LIST ->
  foldl (fun d key => <[key := x]> d) (∅ : gmap string A) KEY_LIST !! k = None.
Proof.
  intros Hk. cbn [foldl KEY_LIST]. rewrite !lookup_insert.
  repeat case_decide; subst;
    try solve [exfalso; apply Hk; unfold KEY_LIST; repeat constructor].
  apply lookup_empty.
Qed.

(** One extraction cycle brings a fresh extractor back to itself. *)
Lemma cycle_fresh img md ps (mdl : VitModel (F:=F)) :
  _init_hooks_data (_clear_hooks (run_model img (_register_hooks (fresh md ps mdl))))
  = fresh md ps mdl.
Proof.
  destruct (_register_hooks_hooked (fresh md ps mdl)) as [L HL].
  rewrite HL. clear HL. cbn [fresh hook_handlers forward_hooks app].
  match goal with |- context [run_model img ?s] =>
    destruct (run_model_buffered img s) as (od & -> & Hod) end.
  unfold _clear_hooks, _init_hooks_data, set_hooks, set_outputs, set_layers, fresh.
  cbn [mode patch_size model hook_handlers layers_dict outputs_dict forward_hooks] in *.
  rewrite remove_all_self. f_equal.
  apply reset_outputs. intros k Hk. rewrite Hod by assumption.
  now apply fresh_no_other_key.
Qed.
End LifecycleFacts.

Section FacadeFacts.
Context `{Scalar F}.
Implicit Types s : VitExtractor (F:=F).
Implicit Types img x : tensor F.
Implicit Types c : call (F:=F).

Lemma bindM_eq {A B} (f : A -> M (F:=F) B) (m : M (F:=F) A) s :
  (m ≫= f) s
  = match value (m s) with
    | Ok a => Outcome (final (f a (final (m s))))
                      (events (m s) ++ events (f a (final (m s))))
                      (value (f a (final (m s))))
    | Err e => Outcome (final (m s)) (events (m s)) (Err e)
    end.
Proof. reflexivity. Qed.

Lemma keeps_lift {A} (r : result A) : keeps (F:=F) (lift r).
Proof. intros md ps mdl. reflexivity. Qed.

Lemma keeps_mret {A} (a : A) : keeps (F:=F) (mret a).
Proof. intros md ps mdl. reflexivity. Qed.

Lemma keeps_emit (e : event (F:=F)) : keeps (F:=F) (emit e).
Proof. intros md ps mdl. reflexivity. Qed.

Lemma keeps_self : keeps (self (F:=F)).
Proof. intros md ps mdl. reflexivity. Qed.

Lemma keeps_bind {A B} (m : M (F:=F) A) (f : A -> M (F:=F) B) :
  keeps m -> (forall a, keeps (f a)) -> keeps (m ≫= f).
Proof.
  intros Hm Hf md ps mdl. rewrite bindM_eq.
  destruct (value (m (fresh md ps mdl))); cbn [final]; [rewrite Hm; apply Hf|apply Hm].
Qed.

Lemma keeps_get_feature img : keeps (get_feature_from_input img).
Proof. intros md ps mdl. apply cycle_fresh. Qed.

Lemma keeps_get_qkv_feature img : keeps (get_qkv_feature_from_input img).
Proof. intros md ps mdl. apply cycle_fresh. Qed.

Lemma keeps_get_attn_feature img : keeps (get_attn_feature_from_input img).
Proof. intros md ps mdl. apply cycle_fresh. Qed.

Create HintDb keeps discriminated.
#[local] Hint Resolve keeps_lift keeps_mret keeps_emit keeps_self
  keeps_get_feature keeps_get_qkv_feature keeps_get_attn_feature : keeps.

Ltac keeps_tac :=
  repeat first
    [ progress auto with keeps
    | apply keeps_bind; [|intros ?]
    | case_decide ].

Lemma keeps_self_sim x : keeps (self_sim x).
Proof. unfold self_sim. keeps_tac. Qed.

#[local] Hint Resolve keeps_self_sim : keeps.

Lemma keeps_run_call c : keeps (run_call c).
Proof.
  destruct c; cbn [run_call]; unfold returning,
    get_keys_self_sim_from_input, get_values_self_sim_from_input,
    get_queries_self_sim_from_input, get_tokens_self_sim_from_input,
    get_keys_cross_sim_from_input, get_attentions_from_input,
    get_cls_token_from_input, get_keys_from_input, get_values_from_input,
    get_queries_from_input, get_tokens_from_input; keeps_tac.
Qed.

Lemma run_calls_fresh (history : list (call (F:=F))) md ps mdl :
  run_calls history (fresh md ps mdl) = fresh md ps mdl.
Proof.
  unfold run_calls. induction history as [|c history IH]; [reflexivity|].
  cbn [foldl]. now rewrite keeps_run_call.
Qed.

Lemma __init___fresh vit_small vit_base vit_tiny md ps s0 :
  __init__ vit_small vit_base vit_tiny md ps (None : option unit) = Ok s0 ->
  exists mdl, s0 = fresh md ps mdl.
Proof.
  unfold __init__. destruct (MODE _ _ _ !! md) as [make|]; [|discriminate].
  rewrite bind_Ok. intros [= <-]. exists (make ps). reflexivity.
Qed.

Lemma fresh_dicts md ps (mdl : VitModel (F:=F)) key :
  key ∈ KEY_LIST ->
  outputs_dict (fresh md ps mdl) !! key = Some [] /\
  layers_dict (fresh md ps mdl) !! key = Some ALL_STAGES.
Proof.
  unfold KEY_LIST. rewrite !elem_of_cons, elem_of_nil.
  intros [->|[->|[->|[->|[]]]]]; split; reflexivity.
Qed.

(** C2: whatever calls came before, after a public operation the hook
    handler list is empty, no hook is left on the model, every capture
    buffer is empty and every capture selection is the list of all
    stages; the operation returns and records what it would on the
    extractor as [__init__] left it. *)
Theorem extraction_resets_state vit_small vit_base vit_tiny md ps s0
    (history : list (call (F:=F))) c :
  __init__ vit_small vit_base vit_tiny md ps (None : option unit) = Ok s0 ->
  let o := run_call c (run_calls history s0) in
  hook_handlers (final o) = [] /\
  forward_hooks (final o) = [] /\
  (forall key, key ∈ KEY_LIST ->
     outputs_dict (final o) !! key = Some [] /\
     layers_dict (final o) !! key = Some ALL_STAGES) /\
  value o = value (run_call c s0) /\
  events o = events (run_call c s0).
Proof.
  intros Hinit. apply __init___fresh in Hinit as [mdl ->].
  rewrite run_calls_fresh. cbv zeta.
  rewrite (keeps_run_call c md ps mdl).
  split; [reflexivity|]. split; [reflexivity|].
  split; [|split; reflexivity].
  intros key Hkey. now apply fresh_dicts.
Qed.
End FacadeFacts.

(** ** Operations of the facade *)

Section FacadeClaims.
Context `{Scalar F}.
Implicit Types s : VitExtractor (F:=F).
Implicit Types img x tokens attn : tensor F.

(** An extraction cycle changes neither the mode nor the patch size. *)
Lemma cycle_static img s :
  let s' := _init_hooks_data (_clear_hooks (run_model img (_register_hooks s))) in
  mode s' = mode s /\ patch_size s' = patch_size s.
Proof.
  destruct (_register_hooks_hooked s) as [L ->].
  match goal with |- context [run_model img ?s1] =>
    destruct (run_model_buffered img s1) as (od & -> & _) end.
  split; reflexivity.
Qed.

Lemma slice_col0_entries tokens b np d :
  shape tokens = [b; np; d] -> 0 < np ->
  exists cls,
    slice_col0 tokens = Ok cls /\ shape cls = [b; d] /\
    forall bi k, bi < b -> k < d ->
      at2 d (data cls) bi k = at3 np d (data tokens) bi 0 k.
Proof.
  intros Hsh Hnp. unfold slice_col0. rewrite Hsh.
  destruct np as [|np]; [lia|]. cbn [Nat.ltb Nat.leb numel fold_right].
  eexists. split; [reflexivity|]. split; [reflexivity|].
  intros bi k Hbi Hk. cbn [data]. unfold at2.
  rewrite Nat.mul_1_r. now rewrite nth_tabulate2.
Qed.

Lemma get_tokens_value img n s :
  value (get_tokens_from_input img n s)
  = py_index (outputs_dict (run_model img (_register_hooks s)) !!! BLOCK_KEY) n.
Proof.
  unfold get_tokens_from_input. rewrite bindM_eq.
  cbn [value get_feature_from_input].
  destruct (py_index _ n); reflexivity.
Qed.

Lemma get_cls_token_value img n s :
  value (get_cls_token_from_input img n s)
  = (py_index (outputs_dict (run_model img (_register_hooks s)) !!! BLOCK_KEY) n
     ≫= slice_col0).
Proof.
  unfold get_cls_token_from_input. rewrite bindM_eq.
  cbn [value get_feature_from_input]. rewrite bindM_eq.
  destruct (py_index _ n); reflexivity.
Qed.

(** C9, as the code has it: the class token is [tokens[:, 0, :]], for
    each element of the batch the row of patch 0 of the token tensor. *)
Theorem cls_token_is_patch0_row img n s :
  value (get_cls_token_from_input img n s)
  = (value (get_tokens_from_input img n s) ≫= slice_col0) /\
  forall tokens b np d,
    value (get_tokens_from_input img n s) = Ok tokens ->
    shape tokens = [b; np; d] -> 0 < np ->
    exists cls,
      value (get_cls_token_from_input img n s) = Ok cls /\
      shape cls = [b; d] /\
      forall bi k, bi < b -> k < d ->
        at2 d (data cls) bi k = at3 np d (data tokens) bi 0 k.
Proof.
  rewrite get_cls_token_value, get_tokens_value. split; [reflexivity|].
  intros tokens b np d -> Hsh Hnp. rewrite bind_Ok.
  now apply slice_col0_entries.
Qed.


End FacadeClaims.

(** ** Cross-similarity of images with different patch counts *)

Section CrossSimilarity.
Context `{Scalar F}.
Implicit Types s : VitExtractor (F:=F).
Implicit Types img src tgt qkv k : tensor F.

Lemma get_keys_from_qkv_static s s' qkv shp :
  mode s' = mode s -> patch_size s' = patch_size s ->
  get_keys_from_qkv s' qkv shp = get_keys_from_qkv s qkv shp.
Proof.
  intros Hm Hp.
  unfold get_keys_from_qkv, qkv_planes, get_patch_num, get_height_patch_num,
    get_width_patch_num, get_patch_size, get_head_num, get_embedding_dim.
  now rewrite Hm, Hp.
Qed.

Lemma get_keys_shape s qkv shp p k :
  get_patch_num s shp = Ok p -> (0 <= p)%Z ->
  get_keys_from_qkv s qkv shp = Ok k ->
  shape k = [get_head_num s; Z.to_nat p; get_embedding_dim s / get_head_num s].
Proof.
  intros Hp Hpos. unfold get_keys_from_qkv, qkv_planes.
  rewrite Hp, bind_Ok. unfold reshape_qkv. rewrite decide_True by assumption.
  unfold reshape. case (_ =? _); [|discriminate].
  rewrite bind_Ok. unfold permute_1203. cbn [shape data]. rewrite bind_Ok.
  unfold index0. cbn [shape data Nat.ltb Nat.leb]. now intros [= <-].
Qed.

(** What [get_keys_from_input] returns and records. *)
Lemma get_keys_from_input_eq img n s :
  let o := get_keys_from_input img n s in
  value o
  = (py_index (outputs_dict (run_model img (_register_hooks s)) !!! QKV_KEY) n
     ≫= fun qkv => get_keys_from_qkv s qkv (img_shape img)) /\
  events o = [EvForward img] /\
  mode (final o) = mode s /\ patch_size (final o) = patch_size s.
Proof.
  cbv zeta. unfold get_keys_from_input, mbind, M_bind, bindM.
  cbn [value final events get_qkv_feature_from_input lift self].
  destruct (cycle_static img s) as [Hm Hp]. cbv zeta in Hm, Hp.
  destruct (py_index _ n) as [qkv|e];
    cbn [value final events lift self result_bind app]; [|now auto].
  rewrite (get_keys_from_qkv_static s _ qkv _ Hm Hp).
  destruct (get_keys_from_qkv s qkv (img_shape img));
    cbn [value final events lift app]; auto.
Qed.

(** The keys of an image carry its patch count in their shape. *)
Lemma get_keys_from_input_shape img n s p k :
  get_patch_num s (img_shape img) = Ok p ->
  value (get_keys_from_input img n s) = Ok k ->
  (1 <= p)%Z /\
  shape k = [get_head_num s; Z.to_nat p; get_embedding_dim s / get_head_num s].
Proof.
  intros Hp Hk. pose proof (get_patch_num_pos s (shape img) p Hp) as Hpos.
  split; [exact Hpos|].
  destruct (get_keys_from_input_eq img n s) as (Hv & _). cbv zeta in Hv.
  rewrite Hv in Hk. destruct (py_index _ n) as [qkv|e]; [|discriminate].
  rewrite bind_Ok in Hk. eapply get_keys_shape; eauto. lia.
Qed.

(** C4, as the code has it: the patch counts are compared on the keys,
    after both forward evaluations.  For images whose patch counts
    differ the operation never returns a map and computes no similarity.
    When both key extractions succeed it fails on the shape assertion,
    having run exactly the two forward evaluations; when a key extraction
    raises, that exception is the failure of the operation, after the
    forward evaluations run so far. *)
Theorem cross_sim_fails_after_extraction src tgt n s p1 p2 :
  get_patch_num s (img_shape src) = Ok p1 ->
  get_patch_num s (img_shape tgt) = Ok p2 ->
  p1 <> p2 ->
  let o := get_keys_cross_sim_from_input src tgt n s in
  let o1 := get_keys_from_input src n s in
  let o2 := get_keys_from_input tgt n (final o1) in
  is_ok (value o) = false /\
  (EvSimilarity ∉ events o) /\
  (forall ks kt,
     value o1 = Ok ks -> value o2 = Ok kt ->
     value o = Err AssertionError /\
     events o = [EvForward src; EvForward tgt]) /\
  (forall e,
     value o1 = Err e ->
     value o = Err e /\ events o = [EvForward src]) /\
  (forall ks e,
     value o1 = Ok ks -> value o2 = Err e ->
     value o = Err e /\ events o = [EvForward src; EvForward tgt]).
Proof.
  intros Hp1 Hp2 Hne. cbv zeta. unfold get_keys_cross_sim_from_input.
  rewrite bindM_eq.
  destruct (get_keys_from_input_eq src n s) as (_ & He1 & Hm1 & Hps1).
  cbv zeta in He1, Hm1, Hps1.
  set (o1 := get_keys_from_input src n s) in *.
  destruct (value o1) as [ks|e] eqn:Hv1; cbn [value events final].
  2:{ rewrite He1. split; [reflexivity|].
      split; [rewrite !elem_of_cons, elem_of_nil; intros [|[]]; discriminate|].
      split; [discriminate|]. split; [|discriminate].
      intros ? [= <-]. split; reflexivity. }
  rewrite bindM_eq.
  destruct (get_keys_from_input_eq tgt n (final o1)) as (_ & He2 & Hm2 & Hps2).
  cbv zeta in He2, Hm2, Hps2.
  set (o2 := get_keys_from_input tgt n (final o1)) in *.
  destruct (value o2) as [kt|e] eqn:Hv2; cbn [value events final].
  2:{ rewrite He1, He2. cbn [app]. split; [reflexivity|].
      split; [rewrite !elem_of_cons, elem_of_nil; intros [|[|[]]]; discriminate|].
      split; [discriminate|]. split; [discriminate|].
      intros ? ? _ [= <-]. split; reflexivity. }
  assert (Hp2' : get_patch_num (final o1) (img_shape tgt) = Ok p2).
  { revert Hp2. unfold get_patch_num, get_height_patch_num, get_width_patch_num,
      get_patch_size. now rewrite Hps1. }
  destruct (get_keys_from_input_shape src n s p1 ks Hp1 Hv1) as [Hpos1 Hs1].
  destruct (get_keys_from_input_shape tgt n (final o1) p2 kt Hp2' Hv2) as [Hpos2 Hs2].
  rewrite decide_False.
  2:{ rewrite Hs1, Hs2. intros [= _ Hp _]. apply Hne. lia. }
  cbn [lift value events]. rewrite He1, He2, app_nil_r. cbn [app].
  split; [reflexivity|].
  split; [rewrite !elem_of_cons, elem_of_nil; intros [|[|[]]]; discriminate|].
  split; [intros ? ? _ _; split; reflexivity|]. split; discriminate.
Qed.
End CrossSimilarity.

(** * Concrete instances *)

(** ** Instances of the theorems on the sample model *)

Lemma get_patch_num_spec_witness :
  (0 < patch_size sample_extractor)%Z /\
  (get_height_patch_num sample_extractor [1; 3; 224; 224]%Z
     = Ok (224 / patch_size sample_extractor)%Z /\
   get_width_patch_num sample_extractor [1; 3; 224; 224]%Z
     = Ok (224 / patch_size sample_extractor)%Z /\
   get_patch_num sample_extractor [1; 3; 224; 224]%Z
     = Ok (1 + (224 / patch_size sample_extractor)
               * (224 / patch_size sample_extractor))%Z /\
   (patch_size sample_extractor = 16%Z ->
    get_patch_num sample_extractor [1; 3; 224; 224]%Z = Ok 197%Z)).
Proof.
  split; [reflexivity|].
  apply (get_patch_num_spec sample_extractor 1 3 224 224). reflexivity.
Defined.

Lemma extraction_resets_state_witness :
  let img := sample_image 16 16 in
  let history := [GetKeysSelfSim img 0; GetFeature img] in
  let c := GetAttentions img 0 true in
  __init__ (fun _ => sample_model) (fun _ => sample_model) (fun _ => sample_model)
           "small" 16 (None : option unit) = Ok sample_extractor /\
  (let o := run_call c (run_calls history sample_extractor) in
   hook_handlers (final o) = [] /\
   forward_hooks (final o) = [] /\
   (forall key, key ∈ KEY_LIST ->
      outputs_dict (final o) !! key = Some [] /\
      layers_dict (final o) !! key = Some ALL_STAGES) /\
   value o = value (run_call c sample_extractor) /\
   events o = events (run_call c sample_extractor)).
Proof.
  intros img history c. split; [reflexivity|].
  apply (extraction_resets_state (fun _ => sample_model) (fun _ => sample_model)
           (fun _ => sample_model) "small" 16 sample_extractor history c).
  reflexivity.
Defined.


Lemma cross_sim_fails_after_extraction_witness :
  let src := sample_image 32 16 in
  let tgt := sample_image 16 16 in
  let s := sample_extractor in
  get_patch_num s (img_shape src) = Ok 3%Z /\
  get_patch_num s (img_shape tgt) = Ok 2%Z /\
  3%Z <> 2%Z /\
  (let o := get_keys_cross_sim_from_input src tgt 0 s in
   let o1 := get_keys_from_input src 0 s in
   let o2 := get_keys_from_input tgt 0 (final o1) in
   is_ok (value o) = false /\
   (EvSimilarity ∉ events o) /\
   (forall ks kt,
      value o1 = Ok ks -> value o2 = Ok kt ->
      value o = Err AssertionError /\
      events o = [EvForward src; EvForward tgt]) /\
   (forall e,
      value o1 = Err e ->
      value o = Err e /\ events o = [EvForward src]) /\
   (forall ks e,
      value o1 = Ok ks -> value o2 = Err e ->
      value o = Err e /\ events o = [EvForward src; EvForward tgt])).
Proof.
  intros src tgt s.
  split; [reflexivity|]. split; [reflexivity|]. split; [discriminate|].
  apply (cross_sim_fails_after_extraction src tgt 0 s 3 2);
    [reflexivity|reflexivity|discriminate].
Defined.

Lemma attn_cosine_sim_diagonal_witness :
  let xs := [1%R; 0%R; 3%R; 4%R] in
  1 < 2 /\
  (forall (F : Type) (H : Scalar F) (ys : list F) (eps : F),
     length ys = 2 * 2 ->
     exists sim,
       attn_cosine_sim (unsqueeze00 (Tensor [2; 2] ys)) eps = Ok sim /\
       shape sim = [1; 2; 2] /\ wf sim /\
       at3 2 2 (data sim) 0 1 1
       = fdiv (row_dot 2 ys ys 1 1)
              (fmax (fadd fzero (fmul (row_norm 2 ys 1) (row_norm 2 ys 1))) eps)) /\
  length xs = 2 * 2 /\ (0 < eps_default)%R /\
  (eps_default <= row_norm 2 xs 1 * row_norm 2 xs 1)%R /\
  exists sim,
    attn_cosine_sim (unsqueeze00 (Tensor [2; 2] xs)) eps_default = Ok sim /\
    shape sim = [1; 2; 2] /\ wf sim /\
    at3 2 2 (data sim) 0 1 1 = 1%R.
Proof.
  intros xs.
  assert (Hi : 1 < 2) by lia.
  assert (Heps : (0 < eps_default)%R) by (cbn; lra).
  assert (Hnorm : (eps_default <= row_norm 2 xs 1 * row_norm 2 xs 1)%R).
  { unfold row_norm. rewrite sqrt_sqrt by apply Rrow_dot_self_nonneg.
    unfold row_dot, fsum, tab, at2, xs.
    cbn [map seq fold_left nth Nat.mul Nat.add fadd fmul fzero eps_default Rscalar].
    lra. }
  split; [exact Hi|].
  split; [exact (proj1 (attn_cosine_sim_diagonal 2 2 1 Hi))|].
  split; [reflexivity|]. split; [exact Heps|]. split; [exact Hnorm|].
  destruct (proj2 (attn_cosine_sim_diagonal 2 2 1 Hi) xs eps_default eq_refl Heps)
    as (sim & Hsim & Hsh & Hwf & Hone & _).
  exists sim. split; [exact Hsim|]. split; [exact Hsh|]. split; [exact Hwf|].
  exact (Hone Hnorm).
Defined.

Lemma attn_cosine_sim_symmetric_witness :
  let xs := [1%R; 0%R; 1%R; 1%R] in
  (forall a b : R, fmul a b = fmul b a) /\
  length xs = 2 * 2 /\
  exists sim,
    attn_cosine_sim (unsqueeze00 (Tensor [2; 2] xs)) eps_default = Ok sim /\
    shape sim = [1; 2; 2] /\ wf sim /\
    forall i j, i < 2 -> j < 2 ->
      at3 2 2 (data sim) 0 i j = at3 2 2 (data sim) 0 j i.
Proof.
  intros xs. split; [exact Rfmul_comm|]. split; [reflexivity|].
  apply (attn_cosine_sim_symmetric 2 2 xs eps_default Rfmul_comm eq_refl).
Defined.


Lemma cls_token_is_patch0_row_witness :
  let img := sample_image 16 16 in
  let s := sample_extractor in
  value (get_cls_token_from_input img 0 s)
  = (value (get_tokens_from_input img 0 s) ≫= slice_col0) /\
  forall tokens b np d,
    value (get_tokens_from_input img 0 s) = Ok tokens ->
    shape tokens = [b; np; d] -> 0 < np ->
    exists cls,
      value (get_cls_token_from_input img 0 s) = Ok cls /\
      shape cls = [b; d] /\
      forall bi k, bi < b -> k < d ->
        at2 d (data cls) bi k = at3 np d (data tokens) bi 0 k.
Proof.
  intros img s. apply (cls_token_is_patch0_row img 0 s).
Defined.


(** ** Inputs on which four statements of the description fail *)

(** C4: two images of 32 x 16 and 16 x 16 pixels, of 3 and 2 patches with
    16-pixel patches.  The operation fails on the shape assertion, but
    only after it has run both forward evaluations and extracted the keys
    of both images. *)
Lemma cross_sim_runs_forward_first :
  let src := sample_image 32 16 in
  let tgt := sample_image 16 16 in
  let o := get_keys_cross_sim_from_input src tgt 0 sample_extractor in
  let o1 := get_keys_from_input src 0 sample_extractor in
  let o2 := get_keys_from_input tgt 0 (final o1) in
  get_patch_num sample_extractor (img_shape src) = Ok 3%Z /\
  get_patch_num sample_extractor (img_shape tgt) = Ok 2%Z /\
  (exists ks kt, value o1 = Ok ks /\ value o2 = Ok kt /\
                 shape ks = [6; 3; 64] /\ shape kt = [6; 2; 64]) /\
  value o = Err AssertionError /\
  events o = [EvForward src; EvForward tgt] /\
  events o <> [].
Proof.
  intros src tgt o o1 o2.
  assert (Hev : events o = [EvForward src; EvForward tgt]) by (vm_compute; reflexivity).
  split; [reflexivity|]. split; [reflexivity|].
  split.
  { destruct (value o1) as [ks|e] eqn:H1; [|vm_compute in H1; discriminate H1].
    destruct (value o2) as [kt|e] eqn:H2; [|vm_compute in H2; discriminate H2].
    exists ks, kt. split; [reflexivity|]. split; [reflexivity|].
    split.
    - apply (f_equal (fun r => match r with Ok t => shape t | Err _ => [] end)) in H1.
      rewrite <- H1. vm_compute. reflexivity.
    - apply (f_equal (fun r => match r with Ok t => shape t | Err _ => [] end)) in H2.
      rewrite <- H2. vm_compute. reflexivity. }
  split; [vm_compute; reflexivity|]. split; [exact Hev|].
  rewrite Hev. discriminate.
Qed.

(** C5: a token of norm 1e-5, above [eps = 1e-8].  The product of its norm
    with itself is 1e-10, below [eps], and its diagonal entry is 0.01. *)
Lemma diagonal_below_one_above_eps :
  let xs := [(1 / 100000)%R] in
  exists sim,
    attn_cosine_sim (unsqueeze00 (Tensor [1; 1] xs)) eps_default = Ok sim /\
    (eps_default < row_norm 1 xs 0)%R /\
    at3 1 1 (data sim) 0 0 0 = (1 / 100)%R /\
    at3 1 1 (data sim) 0 0 0 <> 1%R.
Proof.
  intros xs.
  destruct (attn_cosine_sim_entries 1 1 xs eps_default eq_refl) as (sim & Hsim & _ & Hent).
  exists sim. split; [exact Hsim|].
  specialize (Hent 0 0 (Nat.lt_0_succ 0) (Nat.lt_0_succ 0)).
  assert (Hn : row_norm 1 xs 0 = (1 / 100000)%R).
  { unfold row_norm, row_dot, fsum, tab, at2, xs.
    cbn [map seq fold_left nth Nat.mul Nat.add fadd fmul fsqrt fzero Rscalar].
    rewrite Rplus_0_l. apply sqrt_square. lra. }
  assert (Hd : row_dot 1 xs xs 0 0 = (1 / 100000 * (1 / 100000))%R).
  { unfold row_dot, fsum, tab, at2, xs.
    cbn [map seq fold_left nth Nat.mul Nat.add fadd fmul fzero Rscalar].
    apply Rplus_0_l. }
  assert (Hv : at3 1 1 (data sim) 0 0 0 = (1 / 100)%R).
  { rewrite Hent, Hn, Hd. unfold fsum.
    cbn [fold_left fadd fmul fdiv fmax fzero eps_default Rscalar].
    rewrite Rplus_0_l, Rmax_right by lra. lra. }
  split; [rewrite Hn; cbn; lra|]. split; [exact Hv|]. rewrite Hv. lra.
Qed.


(** C9: on a token tensor of shape [(1, 2, 384)], [tokens[0]] is the
    [(2, 384)] matrix of all tokens of the image, whereas the class token
    is the [(1, 384)] tensor [tokens[:, 0, :]]. *)
Lemma cls_token_differs_from_tokens_0 :
  let img := sample_image 16 16 in
  exists cls t0,
    value (get_cls_token_from_input img 0 sample_extractor) = Ok cls /\
    (value (get_tokens_from_input img 0 sample_extractor) ≫= index0 0) = Ok t0 /\
    shape cls = [1; 384] /\ shape t0 = [2; 384] /\ cls <> t0.
Proof.
  intros img. eexists. eexists.
  split; [vm_compute; reflexivity|]. split; [vm_compute; reflexivity|].
  split; [reflexivity|]. split; [reflexivity|].
  intros E. apply (f_equal shape) in E. discriminate E.
Qed.

(** * Further properties of the code *)

(** ** Geometry: errors, truncation, degenerate images *)

Section GeometryMore.
Context {F : Type}.
Implicit Types s : VitExtractor (F:=F).

(** The shape is unpacked before the division: a shape that is not a
    4-tuple raises [ValueError] whatever the patch size, a 4-tuple with
    patch size 0 raises [ZeroDivisionError], and every other input gives a
    patch count. *)
Theorem get_patch_num_failures s (input_img_shape : list Z) :
  (length input_img_shape <> 4 ->
   get_patch_num s input_img_shape = Err ValueError) /\
  (length input_img_shape = 4 -> patch_size s = 0%Z ->
   get_patch_num s input_img_shape = Err ZeroDivisionError) /\
  (length input_img_shape = 4 -> patch_size s <> 0%Z ->
   is_ok (get_patch_num s input_img_shape) = true).
Proof.
  destruct input_img_shape as [|b [|c [|h [|w [|x l]]]]];
    (repeat split; intros; cbn [length] in *; try lia; try reflexivity).
  - unfold get_patch_num, get_height_patch_num, get_patch_size, floordiv.
    now rewrite decide_True.
  - now rewrite get_patch_num_eq.
Qed.

(** Rows and columns that do not fill a patch are dropped: an image of
    [nh * patch_size + rh] by [nw * patch_size + rw] pixels with remainders
    below the patch size has [1 + nh * nw] patches. *)
Theorem get_patch_num_truncates s b c nh nw rh rw :
  (0 <= rh < patch_size s)%Z -> (0 <= rw < patch_size s)%Z ->
  get_patch_num s [b; c; nh * patch_size s + rh; nw * patch_size s + rw]%Z
  = Ok (1 + nh * nw)%Z.
Proof.
  intros Hh Hw. rewrite get_patch_num_eq by lia. do 2 f_equal.
  rewrite !Z.div_add_l, !Z.div_small by lia. lia.
Qed.

(** An image smaller than one patch in either direction has the class
    token as its only patch. *)
Theorem get_patch_num_small_image s b c h w :
  (0 <= h)%Z -> (0 <= w)%Z -> (h < patch_size s \/ w < patch_size s)%Z ->
  get_patch_num s [b; c; h; w] = Ok 1%Z.
Proof.
  intros Hh Hw Hsmall. rewrite get_patch_num_eq by lia. f_equal.
  destruct Hsmall; [rewrite (Z.div_small h)|rewrite (Z.div_small w)]; lia.
Qed.

(** The patch count of an image tensor is never below 1, also for a
    negative patch size. *)
Theorem get_patch_num_of_image_positive s (input_img : tensor F) p :
  get_patch_num s (img_shape input_img) = Ok p -> (1 <= p)%Z.
Proof. unfold img_shape. apply get_patch_num_pos. Qed.
End GeometryMore.

(** ** Construction *)

Section ConstructionMore.
Context {F : Type}.
Variables vit_small vit_base vit_tiny : Z -> VitModel (F:=F).

(** [__init__] succeeds exactly for the three modes of [MODE] and without
    pretrained weights: another mode raises [KeyError], a pretrained path
    reaches [load], which raises [NotImplementedError].  On success the
    extractor holds the model of its mode, no hook, empty buffers and all
    stages selected. *)
Theorem __init___outcomes {A} (md : string) (ps : Z) (pretrained : option A) :
  (md <> "small"%string -> md <> "base"%string -> md <> "tiny"%string ->
   __init__ vit_small vit_base vit_tiny md ps pretrained = Err KeyError) /\
  (md = "small"%string \/ md = "base"%string \/ md = "tiny"%string ->
   forall p : A,
     __init__ vit_small vit_base vit_tiny md ps (Some p) = Err NotImplementedError) /\
  __init__ vit_small vit_base vit_tiny "small" ps (None : option A)
  = Ok (fresh "small" ps (vit_small ps)) /\
  __init__ vit_small vit_base vit_tiny "base" ps (None : option A)
  = Ok (fresh "base" ps (vit_base ps)) /\
  __init__ vit_small vit_base vit_tiny "tiny" ps (None : option A)
  = Ok (fresh "tiny" ps (vit_tiny ps)).
Proof.
  split; [|split; [|repeat split]].
  - intros H1 H2 H3. unfold __init__, MODE.
    rewrite !lookup_insert_ne, lookup_empty by congruence. reflexivity.
  - intros [-> | [-> | ->]] p; reflexivity.
Qed.
End ConstructionMore.

(** ** Decomposition: layout and size check *)

Section DecompositionMore.
Context `{Scalar F}.
Implicit Types s : VitExtractor (F:=F).
Implicit Types qkv : tensor F.

Lemma nth_plane (l : list F) r i j :
  j < r -> nth j (firstn r (skipn (i * r) l)) fzero = nth (i * r + j) l fzero.
Proof.
  intros Hj. rewrite nth_firstn, nth_skipn.
  destruct (Nat.ltb_spec j r); [reflexivity|lia].
Qed.

(** Plane [i] of the permuted tensor: entry [(hd, pt, c)] is column
    [i * embedding_dim + hd * head_dim + c] of row [pt] of the combined
    tensor. *)
Lemma plane_entry s qkv input_img_shape p i :
  get_patch_num s input_img_shape = Ok (Z.of_nat p) ->
  shape qkv = [p; 3 * get_embedding_dim s] ->
  wf qkv ->
  i < 3 ->
  exists x,
    (qkv_planes s qkv input_img_shape ≫= index0 i) = Ok x /\
    forall hd pt c,
      hd < get_head_num s -> pt < p -> c < get_embedding_dim s / get_head_num s ->
      at3 p (get_embedding_dim s / get_head_num s) (data x) hd pt c
      = at2 (3 * get_embedding_dim s) (data qkv) pt
          (i * get_embedding_dim s + hd * (get_embedding_dim s / get_head_num s) + c).
Proof.
  intros Hp Hshape Hwf Hi.
  destruct (qkv_planes_Ok s qkv input_img_shape p Hp Hshape Hwf) as [Hlen ->].
  pose proof (head_dim_exact s) as Hexact.
  set (hdim := get_embedding_dim s / get_head_num s) in *.
  set (hn := get_head_num s) in *.
  unfold permute_1203. cbn [shape data]. rewrite bind_Ok.
  unfold index0. cbn [shape data].
  destruct (Nat.ltb_spec i 3) as [_|]; [|lia].
  eexists. split; [reflexivity|]. intros hd pt c Hhd Hpt Hc. cbn [data].
  unfold at3. rewrite nth_plane.
  2:{ cbn [numel fold_right]. rewrite Nat.mul_1_r, Nat.mul_assoc.
      apply row_major_lt; [apply row_major_lt|]; assumption. }
  cbn [numel fold_right]. rewrite Nat.mul_1_r.
  replace (i * (hn * (p * hdim)) + ((hd * p + pt) * hdim + c))
    with (((i * hn + hd) * p + pt) * hdim + c) by lia.
  rewrite nth_tabulate4 by assumption.
  unfold at4, at2. f_equal. rewrite <- Hexact. lia.
Qed.

(** The layout the decomposition reads: in a row of the combined tensor
    the query, key and value thirds follow each other, each third holds
    the heads one after the other, and each head its channels. *)
Theorem qkv_layout s qkv input_img_shape p :
  get_patch_num s input_img_shape = Ok (Z.of_nat p) ->
  shape qkv = [p; 3 * get_embedding_dim s] ->
  wf qkv ->
  let e := get_embedding_dim s in
  let hdim := get_embedding_dim s / get_head_num s in
  exists q k v,
    get_queries_from_qkv s qkv input_img_shape = Ok q /\
    get_keys_from_qkv s qkv input_img_shape = Ok k /\
    get_values_from_qkv s qkv input_img_shape = Ok v /\
    forall hd pt c, hd < get_head_num s -> pt < p -> c < hdim ->
      at3 p hdim (data q) hd pt c = at2 (3 * e) (data qkv) pt (hd * hdim + c) /\
      at3 p hdim (data k) hd pt c = at2 (3 * e) (data qkv) pt (e + hd * hdim + c) /\
      at3 p hdim (data v) hd pt c = at2 (3 * e) (data qkv) pt (2 * e + hd * hdim + c).
Proof.
  intros Hp Hshape Hwf e hdim.
  destruct (plane_entry s qkv input_img_shape p 0 Hp Hshape Hwf) as (q & Hq & Eq); [lia|].
  destruct (plane_entry s qkv input_img_shape p 1 Hp Hshape Hwf) as (k & Hk & Ek); [lia|].
  destruct (plane_entry s qkv input_img_shape p 2 Hp Hshape Hwf) as (v & Hv & Ev); [lia|].
  exists q, k, v. repeat split; try assumption.
  - rewrite Eq by assumption. reflexivity.
  - rewrite Ek by assumption. fold e hdim. now rewrite Nat.mul_1_l.
  - rewrite Ev by assumption. reflexivity.
Qed.

(** A combined tensor that does not hold [patch_num * 3 * embedding_dim]
    elements is rejected by the reshape: none of the three getters
    truncates or pads.  The requested sizes are those of a tensor, whose
    dimensions and element count are signed 64-bit integers. *)
Theorem qkv_size_mismatch s qkv input_img_shape p :
  get_patch_num s input_img_shape = Ok (Z.of_nat p) ->
  (Z.of_nat (p * (3 * get_embedding_dim s)) < 2 ^ 63)%Z ->
  (Z.of_nat (length (data qkv)) < 2 ^ 63)%Z ->
  length (data qkv) <> p * (3 * get_embedding_dim s) ->
  get_queries_from_qkv s qkv input_img_shape = Err RuntimeError /\
  get_keys_from_qkv s qkv input_img_shape = Err RuntimeError /\
  get_values_from_qkv s qkv input_img_shape = Err RuntimeError.
Proof.
  intros Hp _ _ Hlen.
  assert (Hplanes : qkv_planes s qkv input_img_shape = Err RuntimeError).
  { unfold qkv_planes. rewrite Hp, bind_Ok. unfold reshape_qkv.
    rewrite decide_True by lia. rewrite Nat2Z.id. unfold reshape.
    destruct (Nat.eqb_spec
                (numel [p; 3; get_head_num s; get_embedding_dim s / get_head_num s])
                (length (data qkv))) as [E|]; [|reflexivity].
    exfalso. apply Hlen. rewrite <- E. cbn [numel fold_right].
    rewrite Nat.mul_1_r, head_dim_exact. reflexivity. }
  unfold get_queries_from_qkv, get_keys_from_qkv, get_values_from_qkv.
  now rewrite Hplanes.
Qed.
End DecompositionMore.

(** ** Similarity maps: shapes and transposition *)

Section SimilarityMore.
Context `{Scalar F}.

(** [cross_cos_sim] itself accepts token sets with different numbers of
    tokens: for [tx] and [ty] tokens of [d] channels it returns the
    [(1, tx, ty)] map whose entry [(i, j)] is the dot product of token [i]
    of the first set and token [j] of the second over the clamped product
    of their norms. *)
Theorem cross_cos_sim_rectangular tx ty d (xs ys : list F) eps :
  length xs = tx * d -> length ys = ty * d ->
  exists sim,
    cross_cos_sim (unsqueeze00 (Tensor [tx; d] xs)) (unsqueeze00 (Tensor [ty; d] ys)) eps
    = Ok sim /\
    shape sim = [1; tx; ty] /\ wf sim /\
    forall i j, i < tx -> j < ty ->
      at3 tx ty (data sim) 0 i j
      = fdiv (row_dot d xs ys i j)
             (fmax (fadd fzero (fmul (row_norm d xs i) (row_norm d ys j))) eps).
Proof.
  intros Hx Hy.
  destruct (cross_cos_sim_entries tx ty d xs ys eps Hx Hy) as (sim & Hsim & Hsh & Hent).
  exists sim. split; [exact Hsim|]. split; [exact Hsh|]. split; [|exact Hent].
  revert Hsim. unfold cross_cos_sim.
  rewrite !index0_unsqueeze00 by (cbn [numel fold_right]; lia).
  rewrite !bind_Ok. unfold norm_dim2. cbn [shape data]. rewrite !bind_Ok.
  unfold permute_021. cbn [shape data]. rewrite !bind_Ok.
  repeat (rewrite matmul3_Ok || rewrite bind_Ok).
  unfold clamp_min, tdiv. cbn [shape data]. rewrite decide_True by reflexivity.
  intros [= <-]. unfold wf. cbn [shape data numel fold_right].
  rewrite length_tab, length_tabulate3. lia.
Qed.

(** Token sets with different numbers of channels are rejected by the
    matrix product. *)
Theorem cross_cos_sim_channel_mismatch tx ty dx dy (xs ys : list F) eps :
  length xs = tx * dx -> length ys = ty * dy -> dx <> dy ->
  cross_cos_sim (unsqueeze00 (Tensor [tx; dx] xs)) (unsqueeze00 (Tensor [ty; dy] ys)) eps
  = Err RuntimeError.
Proof.
  intros Hx Hy Hd. unfold cross_cos_sim.
  rewrite !index0_unsqueeze00 by (cbn [numel fold_right]; lia).
  rewrite !bind_Ok. unfold norm_dim2. cbn [shape data]. rewrite !bind_Ok.
  unfold permute_021. cbn [shape data]. rewrite !bind_Ok.
  rewrite matmul3_Ok, !bind_Ok.
  unfold matmul3, bcast_dim. cbn [shape data].
  rewrite decide_True by reflexivity. now rewrite decide_False.
Qed.

(** Exchanging the two token sets transposes the map: for [tx] and [ty]
    tokens the one map is a [(1, tx, ty)] tensor, the other a
    [(1, ty, tx)] tensor, and entry [(i, j)] of the first is entry
    [(j, i)] of the second. *)
Theorem cross_cos_sim_transpose tx ty d (xs ys : list F) eps :
  (forall a b : F, fmul a b = fmul b a) ->
  length xs = tx * d -> length ys = ty * d ->
  exists sxy syx,
    cross_cos_sim (unsqueeze00 (Tensor [tx; d] xs)) (unsqueeze00 (Tensor [ty; d] ys)) eps
    = Ok sxy /\
    cross_cos_sim (unsqueeze00 (Tensor [ty; d] ys)) (unsqueeze00 (Tensor [tx; d] xs)) eps
    = Ok syx /\
    shape sxy = [1; tx; ty] /\ wf sxy /\
    shape syx = [1; ty; tx] /\ wf syx /\
    forall i j, i < tx -> j < ty ->
      at3 tx ty (data sxy) 0 i j = at3 ty tx (data syx) 0 j i.
Proof.
  intros Hcomm Hx Hy.
  destruct (cross_cos_sim_full tx ty d xs ys eps Hx Hy) as (sxy & Hxy & Sxy & Wxy & Exy).
  destruct (cross_cos_sim_full ty tx d ys xs eps Hy Hx) as (syx & Hyx & Syx & Wyx & Eyx).
  exists sxy, syx. repeat (split; [assumption|]).
  intros i j Hi Hj. rewrite Exy, Eyx by assumption.
  rewrite (Hcomm (row_norm d xs i)). f_equal.
  unfold row_dot. f_equal. apply tab_ext. intros k _. apply Hcomm.
Qed.
End SimilarityMore.

(** ** What a forward evaluation captures *)

Section CaptureFacts.
Context {F : Type}.
Implicit Types s : VitExtractor (F:=F).
Implicit Types img : tensor F.

Lemma set_hooks_id s : set_hooks (hook_handlers s) (forward_hooks s) s = s.
Proof. now destruct s. Qed.

Lemma attach_if_eq key pt i s :
  attach_if key pt i s
  = set_hooks
      (hook_handlers s ++ (if bool_decide (i ∈ layers_dict s !!! key) then [Hook i pt] else []))
      (forward_hooks s ++ (if bool_decide (i ∈ layers_dict s !!! key) then [Hook i pt] else []))
      s.
Proof.
  unfold attach_if, attach. case_bool_decide; [reflexivity|].
  rewrite !app_nil_r. symmetry. apply set_hooks_id.
Qed.

Lemma register_block_eq s i :
  attach_if PATCH_IMD_KEY AttnPoint i
    (attach_if QKV_KEY QkvPoint i
       (attach_if ATTN_KEY AttnDropPoint i (attach_if BLOCK_KEY BlockPoint i s)))
  = set_hooks (hook_handlers s ++ hooks_at (layers_dict s) i)
              (forward_hooks s ++ hooks_at (layers_dict s) i) s.
Proof.
  rewrite !attach_if_eq. unfold hooks_at, set_hooks.
  cbn [mode patch_size model layers_dict outputs_dict hook_handlers forward_hooks].
  now rewrite <- !app_assoc.
Qed.

Lemma _register_hooks_eq s :
  _register_hooks s
  = set_hooks (hook_handlers s ++ hooks_for (layers_dict s) (seq 0 (blocks (model s))))
              (forward_hooks s ++ hooks_for (layers_dict s) (seq 0 (blocks (model s)))) s.
Proof.
  unfold _register_hooks. generalize (seq 0 (blocks (model s))). intros l.
  revert s. induction l as [|i l IH]; intros s.
  - cbn [foldl hooks_for flat_map]. rewrite !app_nil_r. symmetry. apply set_hooks_id.
  - cbn [foldl]. rewrite register_block_eq, IH.
    unfold set_hooks. cbn [mode patch_size model layers_dict outputs_dict
                             hook_handlers forward_hooks hooks_for flat_map].
    now rewrite <- !app_assoc.
Qed.

Lemma point_key_inj pt pt' : point_key pt = point_key pt' -> pt = pt'.
Proof. destruct pt, pt'; cbn; intros E; try reflexivity; discriminate E. Qed.

Lemma buffered_static s s' :
  buffered s s' -> model s' = model s /\ forward_hooks s' = forward_hooks s.
Proof. intros (od & -> & _). split; reflexivity. Qed.

(** Firing the hooks [L] of one point appends the output of the point once
    per hook on it, to the buffer of the point, and changes no other
    buffer. *)
Lemma fire_fold_spec img i pt (L : list hook) s key :
  let step := fun s h =>
    if decide (h = Hook i pt)
    then set_outputs
           (alter (fun l => l ++ [point_output (model s) pt img i])
                  (point_key pt) (outputs_dict s)) s
    else s in
  outputs_dict (foldl step s L) !! key
  = if decide (key = point_key pt)
    then (fun l => l ++ replicate (count_hooks i pt L) (point_output (model s) pt img i))
           <$> outputs_dict s !! key
    else outputs_dict s !! key.
Proof.
  cbv zeta. revert s. induction L as [|h L IH]; intros s.
  - cbn [foldl count_hooks]. case_decide; [|reflexivity].
    unfold count_hooks. cbn. destruct (outputs_dict s !! key); cbn; [|reflexivity].
    now rewrite app_nil_r.
  - cbn [foldl]. destruct (decide (h = Hook i pt)) as [->|Hne].
    + rewrite IH. cbn [model outputs_dict set_outputs].
      unfold count_hooks. rewrite filter_cons_True by reflexivity. cbn [length replicate].
      case_decide as Hk.
      * subst key. rewrite lookup_alter_eq.
        destruct (outputs_dict s !! point_key pt); cbn; [|reflexivity].
        now rewrite <- app_assoc.
      * now rewrite lookup_alter_ne by congruence.
    + rewrite IH. unfold count_hooks.
      now rewrite filter_cons_False by congruence.
Qed.

Lemma fire_spec img i pt s key :
  outputs_dict (fire img i pt s) !! key
  = if decide (key = point_key pt)
    then (fun l => l ++ replicate (count_hooks i pt (forward_hooks s))
                                  (point_output (model s) pt img i))
           <$> outputs_dict s !! key
    else outputs_dict s !! key.
Proof. apply (fire_fold_spec img i pt (forward_hooks s) s). Qed.

(** One block: each buffer receives the output of its point once per hook
    on the point. *)
Lemma run_block_spec img i s pt :
  outputs_dict (fire img i BlockPoint
                  (fire img i AttnPoint
                     (fire img i AttnDropPoint (fire img i QkvPoint s))))
    !! point_key pt
  = (fun l => l ++ replicate (count_hooks i pt (forward_hooks s))
                             (point_output (model s) pt img i))
      <$> outputs_dict s !! point_key pt.
Proof.
  pose proof (fire_buffered img i QkvPoint s) as B1.
  set (s1 := fire img i QkvPoint s) in *.
  pose proof (fire_buffered img i AttnDropPoint s1) as B2.
  set (s2 := fire img i AttnDropPoint s1) in *.
  pose proof (fire_buffered img i AttnPoint s2) as B3.
  set (s3 := fire img i AttnPoint s2) in *.
  destruct (buffered_static _ _ B1) as [Ma1 Mb1].
  destruct (buffered_static _ _ (buffered_trans _ _ _ B1 B2)) as [Ma2 Mb2].
  destruct (buffered_static _ _ (buffered_trans _ _ _ (buffered_trans _ _ _ B1 B2) B3))
    as [Ma3 Mb3].
  rewrite (fire_spec img i BlockPoint s3), (fire_spec img i AttnPoint s2),
    (fire_spec img i AttnDropPoint s1), (fire_spec img i QkvPoint s).
  rewrite Ma1, Mb1, Ma2, Mb2, Ma3, Mb3.
  destruct pt; repeat case_decide; try reflexivity;
    match goal with
    | E : point_key _ = point_key _ |- _ => apply point_key_inj in E; discriminate E
    | E : point_key ?p <> point_key ?p |- _ => exfalso; apply E; reflexivity
    end.
Qed.

Lemma run_model_fold_spec img (l : list nat) s pt :
  let step := fun s block_idx =>
    fire img block_idx BlockPoint
      (fire img block_idx AttnPoint
         (fire img block_idx AttnDropPoint (fire img block_idx QkvPoint s))) in
  outputs_dict (foldl step s l) !! point_key pt
  = (fun buf => buf ++ flat_map (fun i => replicate (count_hooks i pt (forward_hooks s))
                                            (point_output (model s) pt img i)) l)
      <$> outputs_dict s !! point_key pt.
Proof.
  cbv zeta. revert s. induction l as [|i l IH]; intros s.
  - cbn [foldl flat_map].
    destruct (outputs_dict s !! point_key pt); cbn; [|reflexivity].
    now rewrite app_nil_r.
  - cbn [foldl flat_map]. rewrite IH, run_block_spec.
    assert (B : buffered s (fire img i BlockPoint
                  (fire img i AttnPoint
                     (fire img i AttnDropPoint (fire img i QkvPoint s))))).
    { repeat (eapply buffered_trans; [|apply fire_buffered]). apply buffered_refl. }
    destruct (buffered_static _ _ B) as [-> ->].
    destruct (outputs_dict s !! point_key pt); cbn; [|reflexivity].
    now rewrite <- app_assoc.
Qed.

Lemma count_hooks_app i pt (L1 L2 : list hook) :
  count_hooks i pt (L1 ++ L2) = count_hooks i pt L1 + count_hooks i pt L2.
Proof. unfold count_hooks. now rewrite filter_app, length_app. Qed.

Lemma count_hooks_at ld i pt j :
  count_hooks i pt (hooks_at ld j)
  = if decide (i = j) then (if bool_decide (i ∈ ld !!! point_key pt) then 1 else 0) else 0.
Proof.
  unfold hooks_at. rewrite !count_hooks_app. unfold count_hooks.
  destruct (decide (i = j)) as [->|Hne].
  - destruct pt; cbn [point_key];
      repeat (case_bool_decide; cbn [filter list_filter length];
              repeat (case_decide; try discriminate; cbn [length]));
      try reflexivity; try congruence.
  - repeat (case_bool_decide; cbn [filter list_filter length];
            repeat (case_decide; try congruence; cbn [length])); reflexivity.
Qed.

Lemma count_hooks_for ld i pt (l : list nat) :
  NoDup l ->
  count_hooks i pt (hooks_for ld l)
  = if bool_decide (i ∈ l /\ i ∈ ld !!! point_key pt) then 1 else 0.
Proof.
  induction 1 as [|j l Hj Hnd IH].
  - cbn. rewrite bool_decide_eq_false_2; [reflexivity|].
    intros [Hin _]. now apply elem_of_nil in Hin.
  - cbn [hooks_for flat_map]. rewrite count_hooks_app. fold (hooks_for ld l).
    rewrite IH, count_hooks_at.
    destruct (decide (i = j)) as [->|Hne].
    + rewrite (bool_decide_eq_false_2 (j ∈ l /\ _)) by tauto.
      rewrite Nat.add_0_r.
      rewrite (bool_decide_ext _ (j ∈ j :: l /\ j ∈ ld !!! point_key pt));
        [reflexivity|].
      split; [intros Hs; split; [left|exact Hs]|tauto].
    + cbn [Nat.add].
      rewrite (bool_decide_ext _ (i ∈ j :: l /\ i ∈ ld !!! point_key pt));
        [reflexivity|].
      rewrite elem_of_cons. tauto.
Qed.

Lemma captured_eq ld pt (out : nat -> tensor F) (l l' : list nat) :
  NoDup l -> (forall i, i ∈ l' -> i ∈ l) ->
  flat_map (fun i => replicate (count_hooks i pt (hooks_for ld l)) (out i)) l'
  = map out (filter (fun i => i ∈ ld !!! point_key pt) l').
Proof.
  intros Hnd. induction l' as [|i l' IH]; intros Hsub; [reflexivity|].
  cbn [flat_map]. rewrite IH by (intros; apply Hsub; now right).
  rewrite count_hooks_for by assumption.
  destruct (decide (i ∈ ld !!! point_key pt)) as [Hin|Hout].
  - rewrite filter_cons_True by assumption.
    rewrite bool_decide_eq_true_2; [reflexivity|].
    split; [apply Hsub; left|assumption].
  - rewrite filter_cons_False by assumption.
    rewrite bool_decide_eq_false_2 by tauto. reflexivity.
Qed.

Lemma captured_selected img pt s buf :
  forward_hooks s = [] ->
  outputs_dict s !! point_key pt = Some buf ->
  outputs_dict (run_model img (_register_hooks s)) !! point_key pt
  = Some (buf ++ map (point_output (model s) pt img)
                     (selected (layers_dict s) (point_key pt) (blocks (model s)))).
Proof.
  intros Hfh Hbuf. rewrite _register_hooks_eq, Hfh. cbn [app].
  set (H := hooks_for (layers_dict s) (seq 0 (blocks (model s)))).
  unfold run_model.
  rewrite run_model_fold_spec. cbn [outputs_dict set_hooks model forward_hooks].
  rewrite Hbuf. cbn [fmap option_fmap option_map]. do 2 f_equal.
  unfold selected. apply captured_eq; [apply NoDup_seq|auto].
Qed.

(** During [model(input_img)] with the hooks of [_register_hooks], every
    buffer receives the output of its point for exactly the stages selected
    for it, one tensor per stage, in stage order. *)
Theorem forward_captures_selected_stages img pt s buf :
  forward_hooks s = [] ->
  outputs_dict s !! point_key pt = Some buf ->
  outputs_dict (run_model img (_register_hooks s)) !! point_key pt
  = Some (buf ++ map (point_output (model s) pt img)
                     (selected (layers_dict s) (point_key pt) (blocks (model s)))).
Proof. exact (captured_selected img pt s buf). Qed.
End CaptureFacts.

(** ** Extraction on a fresh extractor *)

Section FreshFacts.
Context {F : Type}.
Implicit Types img : tensor F.
Implicit Types mdl : VitModel (F:=F).

Lemma in_ALL_STAGES i : i ∈ ALL_STAGES <-> i < 12.
Proof.
  unfold ALL_STAGES. rewrite !elem_of_cons, elem_of_nil. lia.
Qed.

Lemma filter_ALL_STAGES n :
  filter (fun i => i ∈ ALL_STAGES) (seq 0 n) = seq 0 (min n 12).
Proof.
  induction n as [|n IH]; [reflexivity|].
  rewrite seq_S, filter_app, IH. cbn [Nat.add filter list_filter].
  destruct (decide (n ∈ ALL_STAGES)) as [Hin|Hout].
  - apply in_ALL_STAGES in Hin.
    replace (min (S n) 12) with (S n) by lia. replace (min n 12) with n by lia.
    now rewrite seq_S.
  - rewrite in_ALL_STAGES in Hout.
    replace (min (S n) 12) with 12 by lia. replace (min n 12) with 12 by lia.
    apply app_nil_r.
Qed.

Lemma captured_fresh md ps mdl img pt :
  outputs_dict (run_model img (_register_hooks (fresh md ps mdl))) !!! point_key pt
  = map (point_output mdl pt img) (seq 0 (min (blocks mdl) 12)).
Proof.
  apply lookup_total_correct.
  rewrite (captured_selected img pt (fresh md ps mdl) []);
    [|reflexivity|destruct pt; reflexivity].
  cbn [app model fresh]. do 2 f_equal. unfold selected.
  replace (layers_dict (fresh md ps mdl) !!! point_key pt) with ALL_STAGES
    by (destruct pt; reflexivity).
  apply filter_ALL_STAGES.
Qed.

(** On a fresh extractor the three extraction operations return, in stage
    order, the outputs of the blocks, of the qkv projections and of the
    attention dropouts of the first 12 stages of the model: one tensor per
    stage, and nothing for a stage beyond the twelfth. *)
Theorem extraction_returns_stage_outputs md ps mdl img :
  let s := fresh md ps mdl in
  let stages := seq 0 (min (blocks mdl) 12) in
  value (get_feature_from_input img s) = Ok (map (block_output mdl img) stages) /\
  value (get_qkv_feature_from_input img s) = Ok (map (qkv_output mdl img) stages) /\
  value (get_attn_feature_from_input img s) = Ok (map (attn_drop_output mdl img) stages).
Proof.
  cbv zeta. cbn [value get_feature_from_input get_qkv_feature_from_input
                   get_attn_feature_from_input].
  pose proof (captured_fresh md ps mdl img BlockPoint) as Hb.
  pose proof (captured_fresh md ps mdl img QkvPoint) as Hq.
  pose proof (captured_fresh md ps mdl img AttnDropPoint) as Ha.
  cbn [point_key point_output] in Hb, Hq, Ha. now rewrite Hb, Hq, Ha.
Qed.
End FreshFacts.

Section PyIndex.
Context {A : Type}.

Lemma py_index_map_seq (f : nat -> A) (len : nat) (i : Z) :
  py_index (map f (seq 0 len)) i
  = if decide (0 <= i < Z.of_nat len)%Z then Ok (f (Z.to_nat i))
    else if decide (- Z.of_nat len <= i < 0)%Z then Ok (f (Z.to_nat (Z.of_nat len + i)))
    else Err IndexError.
Proof.
  unfold py_index. rewrite length_map, length_seq.
  assert (Hlk : forall j, j < len -> map f (seq 0 len) !! j = Some (f j)).
  { intros j Hj. rewrite list_lookup_fmap, lookup_seq_lt by assumption. reflexivity. }
  repeat case_decide; try lia; try reflexivity; rewrite Hlk by lia; reflexivity.
Qed.
End PyIndex.

Section FreshFacade.
Context `{Scalar F}.
Implicit Types img : tensor F.
Implicit Types mdl : VitModel (F:=F).

(** [get_tokens_from_input] on a fresh extractor of a model with [len]
    captured stages: a stage index from 0 to [len - 1] gives the output of
    that block, an index from [-len] to -1 counts from the last stage, and
    any other index raises [IndexError]. *)
Theorem tokens_by_stage md ps mdl img (layer_num : Z) :
  let s := fresh md ps mdl in
  let len := Z.of_nat (min (blocks mdl) 12) in
  ((0 <= layer_num < len)%Z ->
   value (get_tokens_from_input img layer_num s)
   = Ok (block_output mdl img (Z.to_nat layer_num))) /\
  ((- len <= layer_num < 0)%Z ->
   value (get_tokens_from_input img layer_num s)
   = Ok (block_output mdl img (Z.to_nat (len + layer_num)))) /\
  ((layer_num < - len \/ len <= layer_num)%Z ->
   value (get_tokens_from_input img layer_num s) = Err IndexError).
Proof.
  cbv zeta. rewrite get_tokens_value.
  pose proof (captured_fresh md ps mdl img BlockPoint) as Hb.
  cbn [point_key point_output] in Hb. rewrite Hb, py_index_map_seq.
  repeat split; intros; repeat case_decide; try lia; reflexivity.
Qed.

Lemma projections_fresh md ps mdl img (layer_num : Z) :
  let s := fresh md ps mdl in
  (0 <= layer_num < Z.of_nat (min (blocks mdl) 12))%Z ->
  let qkv := qkv_output mdl img (Z.to_nat layer_num) in
  value (get_queries_from_input img layer_num s)
  = get_queries_from_qkv s qkv (img_shape img) /\
  value (get_keys_from_input img layer_num s)
  = get_keys_from_qkv s qkv (img_shape img) /\
  value (get_values_from_input img layer_num s)
  = get_values_from_qkv s qkv (img_shape img).
Proof.
  cbv zeta. intros Hn.
  pose proof (captured_fresh md ps mdl img QkvPoint) as Hq. cbn [point_key point_output] in Hq.
  pose proof (cycle_fresh img md ps mdl) as Hc.
  unfold get_queries_from_input, get_keys_from_input, get_values_from_input,
    mbind, M_bind, bindM.
  cbn [value final events get_qkv_feature_from_input lift self].
  rewrite Hq, Hc, py_index_map_seq, decide_True by lia.
  cbn [value final lift self].
  repeat split;
    match goal with |- context [value (match ?r with _ => _ end)] => destruct r end;
    reflexivity.
Qed.

(** The keys, queries and values of a stage are the decomposition of the
    output of the qkv projection of that stage. *)
Theorem projections_by_stage md ps mdl img (layer_num : Z) :
  let s := fresh md ps mdl in
  (0 <= layer_num < Z.of_nat (min (blocks mdl) 12))%Z ->
  let qkv := qkv_output mdl img (Z.to_nat layer_num) in
  value (get_queries_from_input img layer_num s)
  = get_queries_from_qkv s qkv (img_shape img) /\
  value (get_keys_from_input img layer_num s)
  = get_keys_from_qkv s qkv (img_shape img) /\
  value (get_values_from_input img layer_num s)
  = get_values_from_qkv s qkv (img_shape img).
Proof. exact (projections_fresh md ps mdl img layer_num). Qed.

(** Cross-similarity of an image with itself returns what the key
    self-similarity of the image returns. *)
Theorem cross_sim_of_same_image md ps mdl img (layer_num : Z) :
  let s := fresh md ps mdl in
  value (get_keys_cross_sim_from_input img img layer_num s)
  = value (get_keys_self_sim_from_input img layer_num s).
Proof.
  cbv zeta. set (s := fresh md ps mdl).
  assert (Hk : final (get_keys_from_input img layer_num s) = s).
  { unfold get_keys_from_input.
    apply (keeps_bind _ _ (keeps_get_qkv_feature img)). intros features.
    apply keeps_bind; [apply keeps_lift|]. intros qkv.
    apply keeps_bind; [apply keeps_self|]. intros s'. apply keeps_lift. }
  unfold get_keys_cross_sim_from_input, get_keys_self_sim_from_input.
  rewrite !bindM_eq.
  destruct (value (get_keys_from_input img layer_num s)) as [ks|e] eqn:Hv;
    cbn [value]; [|reflexivity].
  rewrite Hk, bindM_eq, Hv. cbn [value final].
  rewrite decide_True by reflexivity.
  unfold self_sim, mbind, M_bind, bindM.
  cbn [value final events lift emit].
  destruct (concatenate_heads ks) as [c|e]; cbn [value final events lift emit];
    [|reflexivity].
  unfold cross_cos_sim, attn_cosine_sim.
  destruct (index0 0 c) as [x0|e]; [|reflexivity]. rewrite !bind_Ok.
  destruct (norm_dim2 x0); reflexivity.
Qed.
End FreshFacade.

(** ** Forward evaluations and similarity maps per call *)

Section EventFacts.
Context `{Scalar F}.
Implicit Types s : VitExtractor (F:=F).
Implicit Types c : call (F:=F).

Implicit Types img src tgt x : tensor F.

Lemma bind_outcome {A B} (m : M (F:=F) A) (f : A -> M (F:=F) B) s :
  events ((m ≫= f) s)
  = events (m s) ++ match value (m s) with
                    | Ok a => events (f a (final (m s)))
                    | Err _ => []
                    end /\
  value ((m ≫= f) s)
  = match value (m s) with
    | Ok a => value (f a (final (m s)))
    | Err e => Err e
    end.
Proof.
  rewrite bindM_eq. destruct (value (m s)); cbn [events value]; split;
    try reflexivity. now rewrite app_nil_r.
Qed.

Lemma returning_outcome {A} (g : A -> returned) (m : M (F:=F) A) s :
  events (returning g m s) = events (m s) /\
  is_ok (value (returning g m s)) = is_ok (value (m s)).
Proof.
  unfold returning. destruct (bind_outcome m (fun a => mret (g a)) s) as [-> ->].
  destruct (value (m s)); cbn [events value mret M_ret lift is_ok];
    split; try reflexivity; apply app_nil_r.
Qed.

(** The extraction operations evaluate the model once and compute no
    similarity. *)
Lemma extraction_events img n s :
  events (get_keys_from_input img n s) = [EvForward img] /\
  events (get_values_from_input img n s) = [EvForward img] /\
  events (get_queries_from_input img n s) = [EvForward img] /\
  events (get_tokens_from_input img n s) = [EvForward img] /\
  events (get_cls_token_from_input img n s) = [EvForward img] /\
  forall b, events (get_attentions_from_input img n b s) = [EvForward img].
Proof.
  unfold get_keys_from_input, get_values_from_input, get_queries_from_input,
    get_tokens_from_input, get_cls_token_from_input, get_attentions_from_input,
    mbind, M_bind, bindM.
  cbn [value final events get_feature_from_input get_qkv_feature_from_input
         get_attn_feature_from_input lift self].
  repeat split; try intros b;
    repeat (cbn [value final events lift self app mret M_ret];
            try match goal with
              | |- context [match ?r with Ok _ => _ | Err _ => _ end] => destruct r
              end);
    reflexivity.
Qed.

Lemma self_sim_outcome x s :
  (events (self_sim x s) = [] /\ is_ok (value (self_sim x s)) = false) \/
  events (self_sim x s) = [EvSimilarity].
Proof.
  unfold self_sim, mbind, M_bind, bindM.
  cbn [value final events lift emit].
  destruct (concatenate_heads x); cbn [value final events lift emit app is_ok];
    [right|left; split]; reflexivity.
Qed.

(** An extraction followed by [self_sim]. *)
Lemma extract_then_self_sim (m : M (F:=F) (tensor F)) img s :
  events (m s) = [EvForward img] ->
  (events ((m ≫= fun ks => self_sim ks) s) = [EvForward img] /\
   is_ok (value ((m ≫= fun ks => self_sim ks) s)) = false) \/
  events ((m ≫= fun ks => self_sim ks) s) = [EvForward img; EvSimilarity].
Proof.
  intros He. destruct (bind_outcome m (fun ks => self_sim ks) s) as [-> ->]. rewrite He.
  destruct (value (m s)) as [ks|e]; [|left; split; reflexivity].
  destruct (self_sim_outcome ks (final (m s))) as [[-> Hv]| ->];
    [left; split; [reflexivity|exact Hv]|right; reflexivity].
Qed.

(** The three courses of the cross-similarity. *)
Lemma cross_sim_outcome src tgt n s :
  let o := get_keys_cross_sim_from_input src tgt n s in
  (is_ok (value (get_keys_from_input src n s)) = false /\
   events o = [EvForward src] /\ is_ok (value o) = false) \/
  (is_ok (value (get_keys_from_input src n s)) = true /\
   events o = [EvForward src; EvForward tgt] /\ is_ok (value o) = false) \/
  (is_ok (value (get_keys_from_input src n s)) = true /\
   events o = [EvForward src; EvForward tgt; EvSimilarity]).
Proof.
  cbv zeta. unfold get_keys_cross_sim_from_input.
  match goal with |- context [(?m ≫= ?f) s] =>
    destruct (bind_outcome m f s) as [-> ->] end.
  rewrite (proj1 (extraction_events src n s)).
  destruct (value (get_keys_from_input src n s)) as [ks|e];
    [|left; repeat split; reflexivity].
  right. set (s1 := final (get_keys_from_input src n s)).
  match goal with |- context [(?m ≫= ?f) s1] =>
    destruct (bind_outcome m f s1) as [-> ->] end.
  rewrite (proj1 (extraction_events tgt n s1)).
  destruct (value (get_keys_from_input tgt n s1)) as [kt|e];
    [|left; repeat split; reflexivity].
  set (s2 := final (get_keys_from_input tgt n s1)).
  case_decide; [|left; repeat split; reflexivity].
  unfold mbind, M_bind, bindM. cbn [value final events lift emit].
  destruct (concatenate_heads ks); cbn [value final events lift emit app is_ok];
    [|left; repeat split; reflexivity].
  destruct (concatenate_heads kt); cbn [value final events lift emit app is_ok];
    [|left; repeat split; reflexivity].
  right. repeat split; reflexivity.
Qed.

(** Every call evaluates the model once on its image, also when it raises
    afterwards; the cross-similarity evaluates it on the source and then on
    the target, and on the source alone when the keys of the source could
    not be extracted. *)
Theorem forward_evaluations_per_call c s :
  match c with
  | GetKeysCrossSim src tgt n =>
      forward_inputs (events (run_call c s))
      = if is_ok (value (get_keys_from_input src n s)) then [src; tgt] else [src]
  | _ => forward_inputs (events (run_call c s)) = call_inputs c
  end.
Proof.
  destruct c as [i|i|i|i n|i n|i n|i n|i n|i n|i n|i n|i n b|i j n|i n];
    cbn [run_call call_inputs];
    rewrite (proj1 (returning_outcome _ _ s));
    try (destruct (extraction_events i n s) as (E1 & E2 & E3 & E4 & E5 & E6));
    try reflexivity;
    try (first [rewrite E1|rewrite E2|rewrite E3|rewrite E4|rewrite E5|rewrite E6];
         reflexivity).
  - unfold get_keys_self_sim_from_input.
    destruct (extract_then_self_sim (get_keys_from_input i n) i s E1) as [[-> _]| ->];
      reflexivity.
  - unfold get_values_self_sim_from_input.
    destruct (extract_then_self_sim (get_values_from_input i n) i s E2) as [[-> _]| ->];
      reflexivity.
  - unfold get_queries_self_sim_from_input.
    destruct (extract_then_self_sim (get_queries_from_input i n) i s E3) as [[-> _]| ->];
      reflexivity.
  - unfold get_tokens_self_sim_from_input.
    destruct (extract_then_self_sim (get_tokens_from_input i n) i s E4) as [[-> _]| ->];
      reflexivity.
  - destruct (cross_sim_outcome i j n s) as [(-> & -> & _)|[(-> & -> & _)|(-> & ->)]];
      reflexivity.
Qed.

(** A similarity map is computed at most once per call, by the five
    similarity operations only, and by each of them whenever it returns. *)
Theorem similarity_maps_per_call c s :
  similarity_count (events (run_call c s)) <= (if is_similarity_call c then 1 else 0) /\
  (is_similarity_call c = true -> is_ok (value (run_call c s)) = true ->
   similarity_count (events (run_call c s)) = 1).
Proof.
  destruct c as [i|i|i|i n|i n|i n|i n|i n|i n|i n|i n|i n b|i j n|i n];
    cbn [run_call is_similarity_call];
    match goal with |- context [returning ?g ?m s] =>
      destruct (returning_outcome g m s) as [-> ->] end;
    try (destruct (extraction_events i n s) as (E1 & E2 & E3 & E4 & E5 & E6));
    try (split; [|discriminate]);
    try (cbn [events get_feature_from_input get_qkv_feature_from_input
                get_attn_feature_from_input];
         first [rewrite E1|rewrite E2|rewrite E3|rewrite E4|rewrite E5|rewrite E6|idtac];
         cbn; lia).
  - unfold get_keys_self_sim_from_input.
    destruct (extract_then_self_sim (get_keys_from_input i n) i s E1) as [[-> Hv]| ->];
      (split; [cbn; lia|intros; try reflexivity; congruence]).
  - unfold get_values_self_sim_from_input.
    destruct (extract_then_self_sim (get_values_from_input i n) i s E2) as [[-> Hv]| ->];
      (split; [cbn; lia|intros; try reflexivity; congruence]).
  - unfold get_queries_self_sim_from_input.
    destruct (extract_then_self_sim (get_queries_from_input i n) i s E3) as [[-> Hv]| ->];
      (split; [cbn; lia|intros; try reflexivity; congruence]).
  - unfold get_tokens_self_sim_from_input.
    destruct (extract_then_self_sim (get_tokens_from_input i n) i s E4) as [[-> Hv]| ->];
      (split; [cbn; lia|intros; try reflexivity; congruence]).
  - destruct (cross_sim_outcome i j n s) as [(_ & -> & Hv)|[(_ & -> & Hv)|(_ & ->)]];
      (split; [cbn; lia|intros; try reflexivity; congruence]).
Qed.
End EventFacts.

(** ** From projections to similarity maps *)

Section SelfSimilarityPipeline.
Context `{Scalar F}.
Implicit Types s : VitExtractor (F:=F).
Implicit Types img x qkv : tensor F.
Implicit Types mdl : VitModel (F:=F).

Lemma qkv_getters_Ok s qkv input_img_shape p :
  get_patch_num s input_img_shape = Ok (Z.of_nat p) ->
  length (data qkv) = p * (3 * get_embedding_dim s) ->
  exists q k v,
    get_queries_from_qkv s qkv input_img_shape = Ok q /\
    get_keys_from_qkv s qkv input_img_shape = Ok k /\
    get_values_from_qkv s qkv input_img_shape = Ok v /\
    shape q = [get_head_num s; p; get_embedding_dim s / get_head_num s] /\
    shape k = shape q /\ shape v = shape q /\
    get_queries_from_qkv s (Tensor [p; 3 * get_embedding_dim s] (data qkv)) input_img_shape
    = Ok q /\
    get_keys_from_qkv s (Tensor [p; 3 * get_embedding_dim s] (data qkv)) input_img_shape
    = Ok k /\
    get_values_from_qkv s (Tensor [p; 3 * get_embedding_dim s] (data qkv)) input_img_shape
    = Ok v.
Proof.
  intros Hp Hlen.
  assert (Hplanes : forall sh,
    qkv_planes s (Tensor sh (data qkv)) input_img_shape
    = permute_1203 (Tensor [p; 3; get_head_num s; get_embedding_dim s / get_head_num s]
                           (data qkv))).
  { intros sh. unfold qkv_planes. rewrite Hp, bind_Ok. unfold reshape_qkv.
    rewrite decide_True by lia. rewrite Nat2Z.id.
    rewrite reshape_Ok; [reflexivity|].
    cbn [numel fold_right data]. rewrite Hlen, Nat.mul_1_r, head_dim_exact.
    reflexivity. }
  unfold get_queries_from_qkv, get_keys_from_qkv, get_values_from_qkv.
  rewrite Hplanes. destruct qkv as [sh dt]. cbn [data] in *. rewrite (Hplanes sh).
  unfold permute_1203. cbn [shape data]. rewrite !bind_Ok.
  unfold index0. cbn [shape data Nat.ltb Nat.leb].
  do 3 eexists. repeat split.
Qed.

(** The reshape only counts elements: a combined tensor with
    [patch_num * 3 * embedding_dim] elements is decomposed whatever its
    shape, in particular with the batch axis [(1, patch_num, 3 *
    embedding_dim)] the hook captures, and each part has shape
    [(head_num, patch_num, head_dim)]. *)
Theorem qkv_getters_count_elements s qkv input_img_shape p :
  get_patch_num s input_img_shape = Ok (Z.of_nat p) ->
  length (data qkv) = p * (3 * get_embedding_dim s) ->
  exists q k v,
    get_queries_from_qkv s qkv input_img_shape = Ok q /\
    get_keys_from_qkv s qkv input_img_shape = Ok k /\
    get_values_from_qkv s qkv input_img_shape = Ok v /\
    shape q = [get_head_num s; p; get_embedding_dim s / get_head_num s] /\
    shape k = shape q /\ shape v = shape q /\
    get_queries_from_qkv s (Tensor [p; 3 * get_embedding_dim s] (data qkv)) input_img_shape
    = Ok q /\
    get_keys_from_qkv s (Tensor [p; 3 * get_embedding_dim s] (data qkv)) input_img_shape
    = Ok k /\
    get_values_from_qkv s (Tensor [p; 3 * get_embedding_dim s] (data qkv)) input_img_shape
    = Ok v.
Proof. exact (qkv_getters_Ok s qkv input_img_shape p). Qed.

Lemma concatenate_heads_entries x h t d :
  shape x = [h; t; d] ->
  exists l,
    concatenate_heads x = Ok (unsqueeze00 (Tensor [t; h * d] l)) /\
    length l = t * (h * d) /\
    forall hd i c, hd < h -> i < t -> c < d ->
      at2 (h * d) l i (hd * d + c) = at3 t d (data x) hd i c.
Proof.
  intros Hsh. unfold concatenate_heads, transpose_01. rewrite Hsh, bind_Ok.
  rewrite reshape_Ok
    by (cbn [numel fold_right data]; rewrite length_tabulate3; lia).
  rewrite bind_Ok. cbn [data]. eexists. split; [reflexivity|].
  split; [apply length_tabulate3|].
  intros hd i c Hhd Hi Hc. unfold at2.
  replace (i * (h * d) + (hd * d + c)) with ((i * h + hd) * d + c) by lia.
  now rewrite nth_tabulate3.
Qed.

(** Collapsing the heads: row [i] of the collapsed matrix is token [i] of
    every head, the heads one after the other, each with its channels. *)
Theorem concatenate_heads_layout x h t d :
  shape x = [h; t; d] ->
  exists l,
    concatenate_heads x = Ok (unsqueeze00 (Tensor [t; h * d] l)) /\
    length l = t * (h * d) /\
    forall hd i c, hd < h -> i < t -> c < d ->
      at2 (h * d) l i (hd * d + c) = at3 t d (data x) hd i c.
Proof. exact (concatenate_heads_entries x h t d). Qed.

Lemma self_sim_Ok x h t d s :
  shape x = [h; t; d] ->
  exists sim,
    value (self_sim x s) = Ok sim /\ shape sim = [1; t; t] /\
    final (self_sim x s) = s /\ events (self_sim x s) = [EvSimilarity].
Proof.
  intros Hsh. destruct (concatenate_heads_entries x h t d Hsh) as (l & Hc & Hl & _).
  destruct (attn_cosine_sim_entries t (h * d) l eps_default Hl) as (sim & Hsim & Hshape & _).
  exists sim. unfold self_sim, mbind, M_bind, bindM.
  cbn [value final events lift emit]. rewrite Hc.
  cbn [value final events lift emit]. rewrite Hsim.
  repeat split; [exact Hshape].
Qed.

(** The self-similarity of a tensor of shape [(h, t, d)] is a
    [(1, t, t)] map, and computing it leaves the extractor untouched. *)
Theorem self_sim_shape x h t d s :
  shape x = [h; t; d] ->
  exists sim,
    value (self_sim x s) = Ok sim /\ shape sim = [1; t; t] /\
    final (self_sim x s) = s /\ events (self_sim x s) = [EvSimilarity].
Proof. exact (self_sim_Ok x h t d s). Qed.

(** End to end: on a fresh extractor, for a stage of the model whose qkv
    projection outputs [patch_num * 3 * embedding_dim] elements, the key
    self-similarity is a [(1, patch_num, patch_num)] map. *)
Theorem keys_self_sim_shape md ps mdl img (layer_num : Z) p :
  let s := fresh md ps mdl in
  (0 <= layer_num < Z.of_nat (min (blocks mdl) 12))%Z ->
  get_patch_num s (img_shape img) = Ok (Z.of_nat p) ->
  length (data (qkv_output mdl img (Z.to_nat layer_num)))
  = p * (3 * get_embedding_dim s) ->
  exists sim,
    value (get_keys_self_sim_from_input img layer_num s) = Ok sim /\
    shape sim = [1; p; p].
Proof.
  cbv zeta. intros Hn Hp Hlen. set (s := fresh md ps mdl) in *.
  destruct (qkv_getters_Ok s _ _ p Hp Hlen)
    as (q & k & v & _ & Hk & _ & Sq & Sk & _).
  destruct (projections_fresh md ps mdl img layer_num Hn) as (_ & Hkeys & _).
  fold s in Hkeys. rewrite Hk in Hkeys.
  rewrite Sq in Sk.
  destruct (self_sim_Ok k _ _ _ (final (get_keys_from_input img layer_num s)) Sk)
    as (sim & Hsim & Hshape & _).
  exists sim. split; [|exact Hshape].
  unfold get_keys_self_sim_from_input. rewrite bindM_eq, Hkeys.
  cbn [value]. exact Hsim.
Qed.
End SelfSimilarityPipeline.

(** ** Instances of the further properties on the sample model *)

Lemma get_patch_num_failures_witness :
  let s := sample_extractor in
  let input_img_shape := [1; 3; 224]%Z in
  (length input_img_shape <> 4 ->
   get_patch_num s input_img_shape = Err ValueError) /\
  (length input_img_shape = 4 -> patch_size s = 0%Z ->
   get_patch_num s input_img_shape = Err ZeroDivisionError) /\
  (length input_img_shape = 4 -> patch_size s <> 0%Z ->
   is_ok (get_patch_num s input_img_shape) = true).
Proof. exact (get_patch_num_failures sample_extractor [1; 3; 224]%Z). Defined.

Lemma get_patch_num_truncates_witness :
  let s := sample_extractor in
  (0 <= 5 < patch_size s)%Z /\ (0 <= 0 < patch_size s)%Z /\
  get_patch_num s [1; 3; 14 * patch_size s + 5; 14 * patch_size s + 0]%Z
  = Ok (1 + 14 * 14)%Z.
Proof.
  intros s.
  assert (H5 : (0 <= 5 < patch_size s)%Z) by (cbn; lia).
  assert (H0 : (0 <= 0 < patch_size s)%Z) by (cbn; lia).
  split; [exact H5|]. split; [exact H0|].
  exact (get_patch_num_truncates s 1 3 14 14 5 0 H5 H0).
Defined.

Lemma get_patch_num_small_image_witness :
  let s := sample_extractor in
  (0 <= 8)%Z /\ (0 <= 224)%Z /\ (8 < patch_size s \/ 224 < patch_size s)%Z /\
  get_patch_num s [1; 3; 8; 224]%Z = Ok 1%Z.
Proof.
  intros s.
  assert (H8 : (0 <= 8)%Z) by lia. assert (H224 : (0 <= 224)%Z) by lia.
  assert (Hs : (8 < patch_size s \/ 224 < patch_size s)%Z) by (left; cbn; lia).
  split; [exact H8|]. split; [exact H224|]. split; [exact Hs|].
  exact (get_patch_num_small_image s 1 3 8 224 H8 H224 Hs).
Defined.

Lemma get_patch_num_of_image_positive_witness :
  get_patch_num sample_extractor (img_shape (sample_image 16 16)) = Ok 2%Z /\
  (1 <= 2)%Z.
Proof.
  split; [reflexivity|].
  exact (get_patch_num_of_image_positive sample_extractor (sample_image 16 16) 2 eq_refl).
Defined.

Lemma __init___outcomes_witness :
  let vit := fun _ : Z => sample_model in
  let md := "large"%string in
  (md <> "small"%string -> md <> "base"%string -> md <> "tiny"%string ->
   __init__ vit vit vit md 16 (None : option unit) = Err KeyError) /\
  (md = "small"%string \/ md = "base"%string \/ md = "tiny"%string ->
   forall p : unit, __init__ vit vit vit md 16 (Some p) = Err NotImplementedError) /\
  __init__ vit vit vit "small" 16 (None : option unit)
  = Ok (fresh "small" 16 (vit 16%Z)) /\
  __init__ vit vit vit "base" 16 (None : option unit)
  = Ok (fresh "base" 16 (vit 16%Z)) /\
  __init__ vit vit vit "tiny" 16 (None : option unit)
  = Ok (fresh "tiny" 16 (vit 16%Z)).
Proof.
  intros vit md.
  exact (__init___outcomes vit vit vit md 16 (None : option unit)).
Defined.

Lemma qkv_layout_witness :
  let s := sample_extractor in
  let qkv := sample_tensor [2; 1152] 0%R in
  let input_img_shape := [1; 3; 16; 16]%Z in
  get_patch_num s input_img_shape = Ok (Z.of_nat 2) /\
  shape qkv = [2; 3 * get_embedding_dim s] /\
  wf qkv /\
  (let e := get_embedding_dim s in
   let hdim := get_embedding_dim s / get_head_num s in
   exists q k v,
     get_queries_from_qkv s qkv input_img_shape = Ok q /\
     get_keys_from_qkv s qkv input_img_shape = Ok k /\
     get_values_from_qkv s qkv input_img_shape = Ok v /\
     forall hd pt c, hd < get_head_num s -> pt < 2 -> c < hdim ->
       at3 2 hdim (data q) hd pt c = at2 (3 * e) (data qkv) pt (hd * hdim + c) /\
       at3 2 hdim (data k) hd pt c = at2 (3 * e) (data qkv) pt (e + hd * hdim + c) /\
       at3 2 hdim (data v) hd pt c = at2 (3 * e) (data qkv) pt (2 * e + hd * hdim + c)).
Proof.
  intros s qkv input_img_shape.
  split; [reflexivity|]. split; [reflexivity|]. split; [reflexivity|].
  exact (qkv_layout s qkv input_img_shape 2 eq_refl eq_refl eq_refl).
Defined.

Lemma qkv_size_mismatch_witness :
  let s := sample_extractor in
  let qkv := sample_tensor [2; 576] 0%R in
  let input_img_shape := [1; 3; 16; 16]%Z in
  get_patch_num s input_img_shape = Ok (Z.of_nat 2) /\
  (Z.of_nat (2 * (3 * get_embedding_dim s)) < 2 ^ 63)%Z /\
  (Z.of_nat (length (data qkv)) < 2 ^ 63)%Z /\
  length (data qkv) <> 2 * (3 * get_embedding_dim s) /\
  get_queries_from_qkv s qkv input_img_shape = Err RuntimeError /\
  get_keys_from_qkv s qkv input_img_shape = Err RuntimeError /\
  get_values_from_qkv s qkv input_img_shape = Err RuntimeError.
Proof.
  intros s qkv input_img_shape.
  assert (Hne : length (data qkv) <> 2 * (3 * get_embedding_dim s))
    by (apply Nat.eqb_neq; reflexivity).
  assert (Hb1 : (Z.of_nat (2 * (3 * get_embedding_dim s)) < 2 ^ 63)%Z) by reflexivity.
  assert (Hb2 : (Z.of_nat (length (data qkv)) < 2 ^ 63)%Z) by reflexivity.
  split; [reflexivity|]. split; [exact Hb1|]. split; [exact Hb2|]. split; [exact Hne|].
  exact (qkv_size_mismatch s qkv input_img_shape 2 eq_refl Hb1 Hb2 Hne).
Defined.

Lemma qkv_getters_count_elements_witness :
  let s := sample_extractor in
  let qkv := sample_tensor [1; 2; 1152] 0%R in
  let input_img_shape := [1; 3; 16; 16]%Z in
  get_patch_num s input_img_shape = Ok (Z.of_nat 2) /\
  length (data qkv) = 2 * (3 * get_embedding_dim s) /\
  exists q k v,
    get_queries_from_qkv s qkv input_img_shape = Ok q /\
    get_keys_from_qkv s qkv input_img_shape = Ok k /\
    get_values_from_qkv s qkv input_img_shape = Ok v /\
    shape q = [get_head_num s; 2; get_embedding_dim s / get_head_num s] /\
    shape k = shape q /\ shape v = shape q /\
    get_queries_from_qkv s (Tensor [2; 3 * get_embedding_dim s] (data qkv)) input_img_shape
    = Ok q /\
    get_keys_from_qkv s (Tensor [2; 3 * get_embedding_dim s] (data qkv)) input_img_shape
    = Ok k /\
    get_values_from_qkv s (Tensor [2; 3 * get_embedding_dim s] (data qkv)) input_img_shape
    = Ok v.
Proof.
  intros s qkv input_img_shape.
  split; [reflexivity|]. split; [reflexivity|].
  exact (qkv_getters_count_elements s qkv input_img_shape 2 eq_refl eq_refl).
Defined.

Lemma cross_cos_sim_rectangular_witness :
  let xs := [1%R; 2%R] in
  let ys := [3%R] in
  length xs = 2 * 1 /\ length ys = 1 * 1 /\
  exists sim,
    cross_cos_sim (unsqueeze00 (Tensor [2; 1] xs)) (unsqueeze00 (Tensor [1; 1] ys))
      eps_default = Ok sim /\
    shape sim = [1; 2; 1] /\ wf sim /\
    forall i j, i < 2 -> j < 1 ->
      at3 2 1 (data sim) 0 i j
      = fdiv (row_dot 1 xs ys i j)
             (fmax (fadd fzero (fmul (row_norm 1 xs i) (row_norm 1 ys j))) eps_default).
Proof.
  intros xs ys. split; [reflexivity|]. split; [reflexivity|].
  exact (cross_cos_sim_rectangular 2 1 1 xs ys eps_default eq_refl eq_refl).
Defined.

Lemma cross_cos_sim_channel_mismatch_witness :
  let xs := [1%R] in
  let ys := [3%R; 4%R] in
  length xs = 1 * 1 /\ length ys = 1 * 2 /\ 1 <> 2 /\
  cross_cos_sim (unsqueeze00 (Tensor [1; 1] xs)) (unsqueeze00 (Tensor [1; 2] ys))
    eps_default = Err RuntimeError.
Proof.
  intros xs ys.
  assert (Hne : 1 <> 2) by lia.
  split; [reflexivity|]. split; [reflexivity|]. split; [exact Hne|].
  exact (cross_cos_sim_channel_mismatch 1 1 1 2 xs ys eps_default eq_refl eq_refl Hne).
Defined.

Lemma cross_cos_sim_transpose_witness :
  let xs := [1%R; 0%R; 1%R; 1%R] in
  let ys := [0%R; 2%R] in
  (forall a b : R, fmul a b = fmul b a) /\
  length xs = 2 * 2 /\ length ys = 1 * 2 /\
  exists sxy syx,
    cross_cos_sim (unsqueeze00 (Tensor [2; 2] xs)) (unsqueeze00 (Tensor [1; 2] ys))
      eps_default = Ok sxy /\
    cross_cos_sim (unsqueeze00 (Tensor [1; 2] ys)) (unsqueeze00 (Tensor [2; 2] xs))
      eps_default = Ok syx /\
    shape sxy = [1; 2; 1] /\ wf sxy /\
    shape syx = [1; 1; 2] /\ wf syx /\
    forall i j, i < 2 -> j < 1 ->
      at3 2 1 (data sxy) 0 i j = at3 1 2 (data syx) 0 j i.
Proof.
  intros xs ys. split; [exact Rfmul_comm|]. split; [reflexivity|]. split; [reflexivity|].
  exact (cross_cos_sim_transpose 2 1 2 xs ys eps_default Rfmul_comm eq_refl eq_refl).
Defined.


Lemma forward_captures_selected_stages_witness :
  let img := sample_image 16 16 in
  let s := sample_extractor in
  forward_hooks s = [] /\
  outputs_dict s !! point_key QkvPoint = Some [] /\
  outputs_dict (run_model img (_register_hooks s)) !! point_key QkvPoint
  = Some ([] ++ map (point_output (model s) QkvPoint img)
                    (selected (layers_dict s) (point_key QkvPoint) (blocks (model s)))).
Proof.
  intros img s. split; [reflexivity|]. split; [reflexivity|].
  exact (forward_captures_selected_stages img QkvPoint s [] eq_refl eq_refl).
Defined.

Lemma tokens_by_stage_witness :
  let img := sample_image 16 16 in
  let s := fresh "small" 16 sample_model in
  let len := Z.of_nat (min (blocks sample_model) 12) in
  let layer_num := (-1)%Z in
  ((0 <= layer_num < len)%Z ->
   value (get_tokens_from_input img layer_num s)
   = Ok (block_output sample_model img (Z.to_nat layer_num))) /\
  ((- len <= layer_num < 0)%Z ->
   value (get_tokens_from_input img layer_num s)
   = Ok (block_output sample_model img (Z.to_nat (len + layer_num)))) /\
  ((layer_num < - len \/ len <= layer_num)%Z ->
   value (get_tokens_from_input img layer_num s) = Err IndexError).
Proof.
  intros img s len layer_num.
  exact (tokens_by_stage "small" 16 sample_model img layer_num).
Defined.

Lemma projections_by_stage_witness :
  let img := sample_image 16 16 in
  let s := fresh "small" 16 sample_model in
  (0 <= 3 < Z.of_nat (min (blocks sample_model) 12))%Z /\
  (let qkv := qkv_output sample_model img (Z.to_nat 3) in
   value (get_queries_from_input img 3 s) = get_queries_from_qkv s qkv (img_shape img) /\
   value (get_keys_from_input img 3 s) = get_keys_from_qkv s qkv (img_shape img) /\
   value (get_values_from_input img 3 s) = get_values_from_qkv s qkv (img_shape img)).
Proof.
  intros img s.
  assert (Hn : (0 <= 3 < Z.of_nat (min (blocks sample_model) 12))%Z) by (cbn; lia).
  split; [exact Hn|].
  exact (projections_by_stage "small" 16 sample_model img 3 Hn).
Defined.

Lemma similarity_maps_per_call_witness :
  let c := GetKeysSelfSim (sample_image 16 16) 0 in
  let s := sample_extractor in
  similarity_count (events (run_call c s)) <= (if is_similarity_call c then 1 else 0) /\
  (is_similarity_call c = true -> is_ok (value (run_call c s)) = true ->
   similarity_count (events (run_call c s)) = 1).
Proof.
  intros c s. exact (similarity_maps_per_call c s).
Defined.

Lemma concatenate_heads_layout_witness :
  let x := sample_tensor [6; 2; 64] 0%R in
  shape x = [6; 2; 64] /\
  exists l,
    concatenate_heads x = Ok (unsqueeze00 (Tensor [2; 6 * 64] l)) /\
    length l = 2 * (6 * 64) /\
    forall hd i c, hd < 6 -> i < 2 -> c < 64 ->
      at2 (6 * 64) l i (hd * 64 + c) = at3 2 64 (data x) hd i c.
Proof.
  intros x. split; [reflexivity|].
  exact (concatenate_heads_layout x 6 2 64 eq_refl).
Defined.

Lemma self_sim_shape_witness :
  let x := sample_tensor [6; 2; 64] 0%R in
  let s := sample_extractor in
  shape x = [6; 2; 64] /\
  exists sim,
    value (self_sim x s) = Ok sim /\ shape sim = [1; 2; 2] /\
    final (self_sim x s) = s /\ events (self_sim x s) = [EvSimilarity].
Proof.
  intros x s. split; [reflexivity|].
  exact (self_sim_shape x 6 2 64 s eq_refl).
Defined.

Lemma keys_self_sim_shape_witness :
  let img := sample_image 16 16 in
  let s := fresh "small" 16 sample_model in
  (0 <= 0 < Z.of_nat (min (blocks sample_model) 12))%Z /\
  get_patch_num s (img_shape img) = Ok (Z.of_nat 2) /\
  length (data (qkv_output sample_model img (Z.to_nat 0))) = 2 * (3 * get_embedding_dim s) /\
  exists sim,
    value (get_keys_self_sim_from_input img 0 s) = Ok sim /\
    shape sim = [1; 2; 2].
Proof.
  intros img s.
  assert (Hn : (0 <= 0 < Z.of_nat (min (blocks sample_model) 12))%Z) by (cbn; lia).
  split; [exact Hn|]. split; [reflexivity|]. split; [reflexivity|].
  exact (keys_self_sim_shape "small" 16 sample_model img 0 2 Hn eq_refl eq_refl).
Defined.
